(** * Token-cache manager: a shallow embedding of
      [src/internal/tokencache/cache_manager.go]

    The Go functions of the cache manager are written as functions of a small
    state monad.  The state ([World]) holds what the Go code reaches through
    its collaborators: the storage manager behind the [IStorageManager]
    interface, the logger and the wall clock.  Every call made through the
    storage interface is recorded, with its arguments and its result, in a
    call journal, so that statements such as "no storage access occurs" can
    be written down. *)

From Stdlib Require Import ZArith String Ascii List Bool Lia.
Import ListNotations.

Open Scope string_scope.
Open Scope Z_scope.

(** ** Go preliminaries *)

Module Go.

(** [int64] is a [Z] in the range below; arithmetic wraps around. *)
Definition int64_min : Z := - 2 ^ 63.
Definition int64_max : Z := 2 ^ 63 - 1.
Definition uint64_max : Z := 2 ^ 64 - 1.

Definition is_int64 (z : Z) : Prop := int64_min <= z <= int64_max.

Definition wrap64 (z : Z) : Z := (z + 2 ^ 63) mod 2 ^ 64 - 2 ^ 63.

(** [a + b] on [int64]. *)
Definition add64 (a b : Z) : Z := wrap64 (a + b).

(** The two sentinel errors of package [strconv]. *)
Inductive NumErrKind : Type := ErrSyntax | ErrRange.

(** Values of the interface type [error]: those built by [errors.New]
    and the [*strconv.NumError] values. *)
Inductive error : Type :=
| errors_New (msg : string)
| NumError (func : string) (num : string) (err : NumErrKind).

(** [len(s) == 0] and [s == ""] on strings. *)
Definition is_empty (s : string) : bool := (s =? "")%string.

End Go.

Import Go.

(** ** Package [strconv], base 10 and bit size 64 only *)

Module strconv.

Definition is_digit (c : ascii) : bool :=
  let n := Z.of_nat (nat_of_ascii c) in (48 <=? n) && (n <=? 57).

Definition digit_val (c : ascii) : Z := Z.of_nat (nat_of_ascii c) - 48.

(** [cutoff] of [ParseUint]: the smallest [n] with [n * 10] above
    [uint64_max]. *)
Definition cutoff : Z := uint64_max / 10 + 1.

(** The loop of [ParseUint] over the bytes of the literal: the value read
    so far is [n]; the result is the value, or the kind of the error. *)
Fixpoint parse_loop (s : string) (n : Z) : Z + NumErrKind :=
  match s with
  | EmptyString => inl n
  | String c rest =>
      if negb (is_digit c) then inr ErrSyntax
      else if cutoff <=? n then inr ErrRange
      else
        let n1 := n * 10 + digit_val c in
        if uint64_max <? n1 then inr ErrRange
        else parse_loop rest n1
  end.

(** [ParseUint(s, 10, 64)]: the value (the largest [uint64] on a range
    error) and the error. *)
Definition ParseUint (s : string) : Z * option error :=
  if is_empty s then (0, Some (NumError "ParseUint" s ErrSyntax))
  else
    match parse_loop s 0 with
    | inl n => (n, None)
    | inr ErrSyntax => (0, Some (NumError "ParseUint" s ErrSyntax))
    | inr ErrRange => (uint64_max, Some (NumError "ParseUint" s ErrRange))
    end.

(** [ParseInt(s, 10, 64)]. *)
Definition ParseInt (s0 : string) : Z * option error :=
  match s0 with
  | EmptyString => (0, Some (NumError "ParseInt" s0 ErrSyntax))
  | String c rest =>
      let '(neg, s) :=
        if Ascii.eqb c "+" then (false, rest)
        else if Ascii.eqb c "-" then (true, rest)
        else (false, s0) in
      match ParseUint s with
      | (_, Some (NumError _ _ ErrSyntax)) | (_, Some (errors_New _)) =>
          (0, Some (NumError "ParseInt" s0 ErrSyntax))
      | (un, _) =>
          let cutoff := 2 ^ 63 in
          if negb neg && (cutoff <=? un)
          then (cutoff - 1, Some (NumError "ParseInt" s0 ErrRange))
          else if neg && (cutoff <? un)
          then (- cutoff, Some (NumError "ParseInt" s0 ErrRange))
          else (if neg then - un else un, None)
      end
  end.

Definition digit_char (d : Z) : ascii := ascii_of_nat (Z.to_nat (48 + d)).

(** Decimal digits of a non-negative [u], most significant first, put in
    front of [acc]; [fuel] bounds the number of digits. *)
Fixpoint format_loop (fuel : nat) (u : Z) (acc : string) : string :=
  match fuel with
  | O => acc
  | S fuel' =>
      let acc' := String (digit_char (u mod 10)) acc in
      if u <? 10 then acc' else format_loop fuel' (u / 10) acc'
  end.

(** [FormatInt(i, 10)]. *)
Definition FormatInt (i : Z) : string :=
  if i <? 0 then String "-" (format_loop 20 (- i) "")
  else format_loop 20 i "".

End strconv.

(** ** Package [time]

    A [time.Time] is kept as the number of seconds since the epoch that its
    [Unix] method returns. *)

Module time.
Definition Time : Type := Z.
Definition Unix (t : Time) : Z := t.
End time.

(** ** Package [msalbase]

    The declarations of this package are not part of the source at hand; the
    records below carry the fields the cache manager reads and writes. *)

Module msalbase.

Definition AuthorityType : Type := string.

Module AuthorityInfo.
Record t : Type := mk {
  Host : string;
  UserRealmURIPrefix : string;
  AuthorityType : msalbase.AuthorityType
}.
End AuthorityInfo.

Module AuthParametersInternal.
Record t : Type := mk {
  AuthorityInfo : AuthorityInfo.t;
  ClientID : string;
  HomeaccountID : string;
  Username : string;
  Password : string;
  Scopes : list string
}.

(** The assignment [p.HomeaccountID = v] through the pointer [p]. *)
Definition set_HomeaccountID (v : string) (p : t) : t :=
  mk (AuthorityInfo p) (ClientID p) v (Username p) (Password p) (Scopes p).
End AuthParametersInternal.

(** Modelled from the spec: [Account] and its constructor [CreateAccount]
    are declared outside the source at hand; the fields are those of the
    Account entity of the data model, in the order of the constructor's
    arguments. *)
Module Account.
Record t : Type := mk {
  HomeAccountID : string;
  Environment : string;
  Realm : string;
  LocalAccountID : string;
  AuthorityType : msalbase.AuthorityType;
  PreferredUsername : string
}.
End Account.

Definition CreateAccount (homeAccountID environment realm localAccountID : string)
    (authorityType : AuthorityType) (preferredUsername : string) : Account.t :=
  Account.mk homeAccountID environment realm localAccountID authorityType
    preferredUsername.

Module ClientInfo.
Record t : Type := mk { UID : string; Utid : string }.
End ClientInfo.

Module IDToken.
Record t : Type := mk {
  RawToken : string;
  PreferredUsername : string;
  Oid : string;
  Subject : string
}.
End IDToken.

Module TokenResponse.
Record t : Type := mk {
  AccessToken : string;
  RefreshToken : string;
  IDToken : IDToken.t;
  FamilyID : string;
  GrantedScopes : list string;
  ExpiresOn : time.Time;
  ExtExpiresOn : time.Time;
  ClientInfo : ClientInfo.t
}.
End TokenResponse.

(** The methods of [TokenResponse] and [IDToken] that the cache manager
    calls.  Their bodies are outside the source at hand, so the manager is
    written over any implementation of them. *)
Class Methods : Type := {
  GetHomeAccountIDFromClientInfo : TokenResponse.t -> string;
  HasRefreshToken : TokenResponse.t -> bool;
  HasAccessToken : TokenResponse.t -> bool;
  GetLocalAccountID : IDToken.t -> string
}.

(** Modelled from the spec: [ConcatenateScopes] is declared outside the
    source at hand; the granted-scope set is serialized as a single
    space-joined string. *)
Definition ConcatenateScopes (scopes : list string) : string :=
  String.concat " " scopes.

Inductive CredentialType : Type :=
| CredentialTypeOauth2RefreshToken
| CredentialTypeOauth2AccessToken.

(** Modelled from the spec: [StorageTokenResponse] and its constructor
    are declared outside the source at hand; it is the aggregate of the
    four entity reads.  The three token entities are held behind interface
    types in Go, hence the type parameters. *)
Module StorageTokenResponse.
Record t {AccessTokenT RefreshTokenT IDTokenT : Type} : Type := mk {
  AccessToken : option AccessTokenT;
  RefreshToken : option RefreshTokenT;
  IDToken : option IDTokenT;
  Account : option Account.t
}.
Arguments t : clear implicits.
Arguments mk {AccessTokenT RefreshTokenT IDTokenT}.
End StorageTokenResponse.

Definition CreateStorageTokenResponse {AccessTokenT RefreshTokenT IDTokenT : Type}
    (accessToken : option AccessTokenT) (refreshToken : option RefreshTokenT)
    (idToken : option IDTokenT) (account : option Account.t)
    : StorageTokenResponse.t AccessTokenT RefreshTokenT IDTokenT :=
  StorageTokenResponse.mk accessToken refreshToken idToken account.

End msalbase.

(** ** Package [requests]: the authority alias resolver *)

Module requests.

Module InstanceDiscoveryMetadata.
Record t : Type := mk { Aliases : list string }.
End InstanceDiscoveryMetadata.

(** Modelled from the spec: the resolver is an external collaborator,
    [GetMetadataEntry(authorityInfo)] returns the alias set or an error.
    The web-request handle stands for the outside world the resolver
    talks to: it fixes the outcome of the resolution of each authority. *)
Record IWebRequestManager : Type := {
  resolve : msalbase.AuthorityInfo.t -> InstanceDiscoveryMetadata.t + error
}.

Record AadInstanceDiscovery : Type := {
  webRequestManager : IWebRequestManager
}.

Definition CreateAadInstanceDiscovery (webRequestManager : IWebRequestManager)
    : AadInstanceDiscovery :=
  {| webRequestManager := webRequestManager |}.

Definition GetMetadataEntry (d : AadInstanceDiscovery)
    (authorityInfo : msalbase.AuthorityInfo.t)
    : InstanceDiscoveryMetadata.t + error :=
  resolve (webRequestManager d) authorityInfo.

End requests.

(** ** Package [tokencache] *)

Module tokencache.

Import msalbase.

(** *** Cache items

    Modelled from the spec: the cache items and their constructors are
    declared outside the source at hand.  The fields are those of the data
    model; the three timestamps of an access token are kept as decimal
    strings, which is what [isAccessTokenValid] parses. *)

Module accessTokenCacheItem.
Record t : Type := mk {
  HomeAccountID : string;
  Environment : string;
  Realm : string;
  ClientID : string;
  Secret : string;
  Scopes : string;
  CachedAt : string;
  ExpiresOnUnixTimestamp : string;
  ExtendedExpiresOnUnixTimestamp : string
}.
End accessTokenCacheItem.

Module refreshTokenCacheItem.
Record t : Type := mk {
  HomeAccountID : string;
  Environment : string;
  ClientID : string;
  Secret : string;
  FamilyID : string
}.
End refreshTokenCacheItem.

Module idTokenCacheItem.
Record t : Type := mk {
  HomeAccountID : string;
  Environment : string;
  Realm : string;
  ClientID : string;
  Secret : string
}.
End idTokenCacheItem.

Module appMetadata.
Record t : Type := mk {
  FamilyID : string;
  ClientID : string;
  Environment : string
}.
End appMetadata.

Definition CreateAccessTokenCacheItem
    (homeAccountID environment realm clientID : string)
    (cachedAt expiresOn extendedExpiresOn : Z) (scopes accessToken : string)
    : accessTokenCacheItem.t :=
  accessTokenCacheItem.mk homeAccountID environment realm clientID accessToken
    scopes (strconv.FormatInt cachedAt) (strconv.FormatInt expiresOn)
    (strconv.FormatInt extendedExpiresOn).

Definition CreateRefreshTokenCacheItem
    (homeAccountID environment clientID refreshToken familyID : string)
    : refreshTokenCacheItem.t :=
  refreshTokenCacheItem.mk homeAccountID environment clientID refreshToken
    familyID.

Definition CreateIDTokenCacheItem
    (homeAccountID environment realm clientID idToken : string)
    : idTokenCacheItem.t :=
  idTokenCacheItem.mk homeAccountID environment realm clientID idToken.

Definition CreateAppMetadata (familyID clientID environment : string)
    : appMetadata.t :=
  appMetadata.mk familyID clientID environment.

Definition StorageTokenResponse : Type :=
  StorageTokenResponse.t accessTokenCacheItem.t refreshTokenCacheItem.t
    idTokenCacheItem.t.

(** *** The storage port *)

Inductive OperationStatusType : Type :=
| OperationStatusTypeSuccess
| OperationStatusTypeFailure.

Module OperationStatus.
Record t : Type := mk { StatusType : OperationStatusType }.
End OperationStatus.

Definition OperationStatusType_eqb (a b : OperationStatusType) : bool :=
  match a, b with
  | OperationStatusTypeSuccess, OperationStatusTypeSuccess => true
  | OperationStatusTypeFailure, OperationStatusTypeFailure => true
  | _, _ => false
  end.

(** The interface [IStorageManager], over the state [S] of whatever
    implements it.  Every method may change that state.  A nil pointer is
    [None]; a nil [error] is [None]. *)
Class IStorageManager (S : Type) : Type := {
  ReadAccessToken :
    string -> list string -> string -> string -> list string ->
    S -> option accessTokenCacheItem.t * S;
  ReadRefreshToken :
    string -> list string -> string -> string ->
    S -> option refreshTokenCacheItem.t * S;
  ReadIDToken :
    string -> list string -> string -> string ->
    S -> option idTokenCacheItem.t * S;
  ReadAccount :
    string -> list string -> string -> S -> option Account.t * S;
  ReadAllAccounts : S -> list Account.t * S;
  ReadAppMetadata :
    list string -> string -> S -> option appMetadata.t * S;
  WriteAccessToken : accessTokenCacheItem.t -> S -> option error * S;
  WriteRefreshToken : refreshTokenCacheItem.t -> S -> option error * S;
  WriteIDToken : idTokenCacheItem.t -> S -> option error * S;
  WriteAccount : Account.t -> S -> option error * S;
  WriteAppMetadata : appMetadata.t -> S -> option error * S;
  DeleteCredentials :
    string -> string -> string -> string -> string -> string -> string ->
    list CredentialType -> S -> (OperationStatus.t * option error) * S
}.

(** One entry of the call journal: the method, its arguments and what it
    returned. *)
Inductive StorageCall : Type :=
| CallReadAccessToken (homeAccountID : string) (envAliases : list string)
    (realm clientID : string) (scopes : list string)
    (res : option accessTokenCacheItem.t)
| CallReadRefreshToken (homeAccountID : string) (envAliases : list string)
    (familyID clientID : string) (res : option refreshTokenCacheItem.t)
| CallReadIDToken (homeAccountID : string) (envAliases : list string)
    (realm clientID : string) (res : option idTokenCacheItem.t)
| CallReadAccount (homeAccountID : string) (envAliases : list string)
    (realm : string) (res : option Account.t)
| CallReadAllAccounts (res : list Account.t)
| CallReadAppMetadata (envAliases : list string) (clientID : string)
    (res : option appMetadata.t)
| CallWriteAccessToken (item : accessTokenCacheItem.t) (res : option error)
| CallWriteRefreshToken (item : refreshTokenCacheItem.t) (res : option error)
| CallWriteIDToken (item : idTokenCacheItem.t) (res : option error)
| CallWriteAccount (item : Account.t) (res : option error)
| CallWriteAppMetadata (item : appMetadata.t) (res : option error)
| CallDeleteCredentials
    (correlationID homeAccountID environment realm clientID familyID
       target : string)
    (types : list CredentialType) (res : OperationStatus.t * option error).

(** *** The logger *)

Inductive Level : Type := LevelTrace | LevelInfo | LevelWarn.

Inductive LogArg : Type :=
| ArgString (s : string)
| ArgStrings (l : list string)
| ArgAuthorityInfo (a : AuthorityInfo.t).

(** A log record: level, message or format string, arguments. *)
Definition LogEntry : Type := (Level * string * list LogArg)%type.

(** *** The state and the monad *)

Record World {S : Type} : Type := mkWorld {
  storageManager : S;
  journal : list StorageCall;
  logged : list LogEntry;
  (** [clock n] is what the [n]-th reading of the wall clock returns,
      in seconds since the epoch. *)
  clock : nat -> Z;
  clockReads : nat
}.
Arguments World : clear implicits.
Arguments mkWorld {S}.

Definition M (S A : Type) : Type := World S -> A * World S.

Definition ret {S A : Type} (a : A) : M S A := fun w => (a, w).

Definition bind {S A B : Type} (m : M S A) (k : A -> M S B) : M S B :=
  fun w => let (a, w') := m w in k a w'.

End tokencache.

Declare Scope go_scope.
Delimit Scope go_scope with go.
Notation "x <- m ;; k" := (tokencache.bind m (fun x => k))
  (at level 100, m at next level, right associativity) : go_scope.
Notation "m ;; k" := (tokencache.bind m (fun _ => k))
  (at level 100, right associativity) : go_scope.
Notation "' p <- m ;; k" := (tokencache.bind m (fun p => k))
  (at level 100, p pattern, m at next level, right associativity) : go_scope.

(** ** The cache manager *)

Module cacheManager.

Import msalbase tokencache.
Local Open Scope go_scope.

Section Manager.

Context {S : Type} {SM : IStorageManager S} {TM : Methods}.

(** **** Effects *)

Definition log (lvl : Level) (format : string) (args : list LogArg)
    : M S unit :=
  fun w =>
    (tt, mkWorld (storageManager w) (journal w)
           (logged w ++ [(lvl, format, args)]) (clock w) (clockReads w)).

(** [time.Now().Unix()] *)
Definition time_Now_Unix : M S Z :=
  fun w =>
    (clock w (clockReads w),
     mkWorld (storageManager w) (journal w) (logged w) (clock w)
       (Datatypes.S (clockReads w))).

(** A call of a method of [m.storageManager]: run it on the storage
    state and add the call, with its result, to the journal. *)
Definition call {A : Type} (method : S -> A * S) (entry : A -> StorageCall)
    : M S A :=
  fun w =>
    let (res, st) := method (storageManager w) in
    (res, mkWorld st (journal w ++ [entry res]) (logged w) (clock w)
            (clockReads w)).

(** **** [isAccessTokenValid] *)

Definition isAccessTokenValid (accessToken : accessTokenCacheItem.t)
    : M S bool :=
  let '(cachedAt, err) :=
    strconv.ParseInt (accessTokenCacheItem.CachedAt accessToken) in
  match err with
  | Some _ =>
      log LevelInfo
        "This access token isn't valid, it was cached at an invalid time."
        [] ;;
      ret false
  | None =>
      now <- time_Now_Unix ;;
      if cachedAt >? now then
        log LevelInfo
          "This access token isn't valid, it was cached at an invalid time."
          [] ;;
        ret false
      else
        let '(expiresOn, err) :=
          strconv.ParseInt
            (accessTokenCacheItem.ExpiresOnUnixTimestamp accessToken) in
        match err with
        | Some _ =>
            log LevelInfo
              "This access token isn't valid, it expires at an invalid time."
              [] ;;
            ret false
        | None =>
            if expiresOn <=? add64 now 300 then
              log LevelInfo "This access token is expired" [] ;;
              ret false
            else ret true
        end
  end.

(** **** [GetAllAccounts] *)

Definition GetAllAccounts : M S (list Account.t) :=
  call ReadAllAccounts CallReadAllAccounts.

(** **** [TryReadCache]

    The result is the pair the Go function returns, preceded by the
    value [authParameters] points to when the function returns. *)

Definition TryReadCache (authParameters : AuthParametersInternal.t)
    (webRequestManager : requests.IWebRequestManager)
    : M S (AuthParametersInternal.t
           * (option StorageTokenResponse * option error)) :=
  let homeAccountID := AuthParametersInternal.HomeaccountID authParameters in
  let realm :=
    AuthorityInfo.UserRealmURIPrefix
      (AuthParametersInternal.AuthorityInfo authParameters) in
  let clientID := AuthParametersInternal.ClientID authParameters in
  let scopes := AuthParametersInternal.Scopes authParameters in
  let aadInstanceDiscovery :=
    requests.CreateAadInstanceDiscovery webRequestManager in
  match requests.GetMetadataEntry aadInstanceDiscovery
          (AuthParametersInternal.AuthorityInfo authParameters) with
  | inr err => ret (authParameters, (None, Some err))
  | inl metadata =>
      let aliases := requests.InstanceDiscoveryMetadata.Aliases metadata in
      log LevelTrace
        "Querying the cache for homeAccountId '%s' environments '%v' realm '%s' clientId '%s' scopes:'%v'"
        [ArgString homeAccountID; ArgStrings aliases; ArgString realm;
         ArgString clientID; ArgStrings scopes] ;;
      if is_empty homeAccountID || (length aliases =? 0)%nat
         || is_empty realm || is_empty clientID
         || (length scopes =? 0)%nat
      then
        log LevelWarn
          "Skipping the tokens cache lookup, one of the primary keys is empty"
          [] ;;
        ret (authParameters,
             (None,
              Some (errors_New
                "Skipping the tokens cache lookup, one of the primary keys is empty")))
      else
        accessToken <-
          call (ReadAccessToken homeAccountID aliases realm clientID scopes)
            (CallReadAccessToken homeAccountID aliases realm clientID scopes) ;;
        accessToken <-
          match accessToken with
          | Some at_ =>
              valid <- isAccessTokenValid at_ ;;
              if negb valid then ret None else ret (Some at_)
          | None => ret None
          end ;;
        idToken <-
          call (ReadIDToken homeAccountID aliases realm clientID)
            (CallReadIDToken homeAccountID aliases realm clientID) ;;
        appMetadata <-
          call (ReadAppMetadata aliases clientID)
            (CallReadAppMetadata aliases clientID) ;;
        let familyID :=
          match appMetadata with
          | None => ""
          | Some a => appMetadata.FamilyID a
          end in
        refreshToken <-
          call (ReadRefreshToken homeAccountID aliases familyID clientID)
            (CallReadRefreshToken homeAccountID aliases familyID clientID) ;;
        account <-
          call (ReadAccount homeAccountID aliases realm)
            (CallReadAccount homeAccountID aliases realm) ;;
        ret (authParameters,
             (Some (CreateStorageTokenResponse accessToken refreshToken
                      idToken account),
              None))
  end.

(** **** [CacheTokenResponse]

    The Go variable [err] is threaded as [err]; the result is the pair
    the Go function returns, preceded by the value [authParameters]
    points to when the function returns. *)

Definition CacheTokenResponse (authParameters : AuthParametersInternal.t)
    (tokenResponse : TokenResponse.t)
    : M S (AuthParametersInternal.t * (option Account.t * option error)) :=
  let err : option error := None in
  log LevelInfo "%v"
    [ArgAuthorityInfo (AuthParametersInternal.AuthorityInfo authParameters)] ;;
  let authParameters :=
    AuthParametersInternal.set_HomeaccountID
      (GetHomeAccountIDFromClientInfo tokenResponse) authParameters in
  let homeAccountID := AuthParametersInternal.HomeaccountID authParameters in
  let environment :=
    AuthorityInfo.Host (AuthParametersInternal.AuthorityInfo authParameters) in
  let realm :=
    AuthorityInfo.UserRealmURIPrefix
      (AuthParametersInternal.AuthorityInfo authParameters) in
  let clientID := AuthParametersInternal.ClientID authParameters in
  let target := ConcatenateScopes (TokenResponse.GrantedScopes tokenResponse) in
  log LevelInfo
    "Writing to the cache for homeAccountId '%s' environment '%s' realm '%s' clientId '%s' target '%s'"
    [ArgString homeAccountID; ArgString environment; ArgString realm;
     ArgString clientID; ArgString target] ;;
  if is_empty homeAccountID || is_empty environment || is_empty realm
     || is_empty clientID || is_empty target
  then
    ret (authParameters,
         (None,
          Some (errors_New
            "Skipping writing data to the tokens cache, one of the primary keys is empty")))
  else
    cachedAt <- time_Now_Unix ;;
    err <-
      (if HasRefreshToken tokenResponse then
         let refreshToken :=
           CreateRefreshTokenCacheItem homeAccountID environment clientID
             (TokenResponse.RefreshToken tokenResponse)
             (TokenResponse.FamilyID tokenResponse) in
         call (WriteRefreshToken refreshToken)
           (CallWriteRefreshToken refreshToken)
       else ret err) ;;
    match err with
    | Some _ => ret (authParameters, (None, err))
    | None =>
    err <-
      (if HasAccessToken tokenResponse then
         let expiresOn := time.Unix (TokenResponse.ExpiresOn tokenResponse) in
         let extendedExpiresOn :=
           time.Unix (TokenResponse.ExtExpiresOn tokenResponse) in
         let accessToken :=
           CreateAccessTokenCacheItem homeAccountID environment realm
             clientID cachedAt expiresOn extendedExpiresOn target
             (TokenResponse.AccessToken tokenResponse) in
         valid <- isAccessTokenValid accessToken ;;
         if valid then
           call (WriteAccessToken accessToken)
             (CallWriteAccessToken accessToken)
         else ret err
       else ret err) ;;
    match err with
    | Some _ => ret (authParameters, (None, err))
    | None =>
    let idTokenJwt := TokenResponse.IDToken tokenResponse in
    let idToken :=
      CreateIDTokenCacheItem homeAccountID environment realm clientID
        (IDToken.RawToken idTokenJwt) in
    (* the result of [WriteIDToken] is dropped, [err] keeps its value *)
    call (WriteIDToken idToken) (CallWriteIDToken idToken) ;;
    match err with
    | Some _ => ret (authParameters, (None, err))
    | None =>
    let localAccountID := GetLocalAccountID idTokenJwt in
    let authorityType :=
      AuthorityInfo.AuthorityType
        (AuthParametersInternal.AuthorityInfo authParameters) in
    let account :=
      CreateAccount homeAccountID environment realm localAccountID
        authorityType (IDToken.PreferredUsername idTokenJwt) in
    err <- call (WriteAccount account) (CallWriteAccount account) ;;
    match err with
    | Some _ => ret (authParameters, (None, err))
    | None =>
    let appMetadata :=
      CreateAppMetadata (TokenResponse.FamilyID tokenResponse) clientID
        environment in
    err <- call (WriteAppMetadata appMetadata)
             (CallWriteAppMetadata appMetadata) ;;
    match err with
    | Some _ => ret (authParameters, (None, err))
    | None => ret (authParameters, (Some account, None))
    end end end end end.

(** **** [DeleteCachedRefreshToken] *)

Definition DeleteCachedRefreshToken
    (authParameters : AuthParametersInternal.t)
    : M S (AuthParametersInternal.t * option error) :=
  let homeAccountID := "" in
  let environment := "" in
  let clientID := AuthParametersInternal.ClientID authParameters in
  let emptyCorrelationID := "" in
  let emptyRealm := "" in
  let emptyFamilyID := "" in
  let emptyTarget := "" in
  log LevelInfo
    "Deleting refresh token from the cache for homeAccountId '%s' environment '%s' clientID '%s'"
    [ArgString homeAccountID; ArgString environment; ArgString clientID] ;;
  if is_empty homeAccountID || is_empty environment || is_empty clientID
  then
    log LevelWarn
      "Failed to delete refresh token from the cache, one of the primary keys is empty"
      [] ;;
    ret (authParameters,
         Some (errors_New
           "Failed to delete refresh token from the cache, one of the primary keys is empty"))
  else
    let types := [CredentialTypeOauth2RefreshToken] in
    '(operationStatus, err) <-
      call (DeleteCredentials emptyCorrelationID homeAccountID environment
              emptyRealm clientID emptyFamilyID emptyTarget types)
        (CallDeleteCredentials emptyCorrelationID homeAccountID environment
           emptyRealm clientID emptyFamilyID emptyTarget types) ;;
    match err with
    | Some _ => ret (authParameters, None)
    | None =>
        if negb (OperationStatusType_eqb
                   (OperationStatus.StatusType operationStatus)
                   OperationStatusTypeSuccess)
        then
          log LevelWarn
            "Error deleting an invalid refresh token from the cache" [] ;;
          ret (authParameters, None)
        else ret (authParameters, None)
    end.

(** **** [deleteCachedAccessToken] *)

Definition deleteCachedAccessToken
    (homeAccountID environment realm clientID target : string)
    : M S (option error) :=
  log LevelInfo
    "Deleting an access token from the cache for homeAccountId '%s' environment '%s' realm '%s' clientId '%s' target '%s'"
    [ArgString homeAccountID; ArgString environment; ArgString realm;
     ArgString clientID; ArgString target] ;;
  let emptyCorrelationID := "" in
  let emptyFamilyID := "" in
  let types := [CredentialTypeOauth2AccessToken] in
  '(operationStatus, err) <-
    call (DeleteCredentials emptyCorrelationID homeAccountID environment
            realm clientID emptyFamilyID target types)
      (CallDeleteCredentials emptyCorrelationID homeAccountID environment
         realm clientID emptyFamilyID target types) ;;
  match err with
  | Some _ => ret err
  | None =>
      if negb (OperationStatusType_eqb
                 (OperationStatus.StatusType operationStatus)
                 OperationStatusTypeSuccess)
      then
        log LevelWarn "Failure deleting an access token from the cache" [] ;;
        ret None
      else ret None
  end.

End Manager.

End cacheManager.

(** ** Collaborators to run the manager with

    The storage manager, the [msalbase] methods and the alias resolver live
    outside [cache_manager.go].  The manager above is written over any of
    them; the ones below are used to run it on concrete inputs. *)

Module memory.

Import msalbase tokencache.

(** One implementation of the [msalbase] methods: a response carries a
    token when its secret is not empty, the home-account id is
    [uid.utid], the local account id is the object id or else the
    subject. *)
#[export] Instance methods : Methods := {|
  GetHomeAccountIDFromClientInfo tr :=
    let ci := TokenResponse.ClientInfo tr in
    if is_empty (ClientInfo.UID ci) || is_empty (ClientInfo.Utid ci) then ""
    else ClientInfo.UID ci ++ "." ++ ClientInfo.Utid ci;
  HasRefreshToken tr := negb (is_empty (TokenResponse.RefreshToken tr));
  HasAccessToken tr := negb (is_empty (TokenResponse.AccessToken tr));
  GetLocalAccountID t :=
    if is_empty (IDToken.Oid t) then IDToken.Subject t else IDToken.Oid t
|}.

Inductive Entity : Type :=
| EntityAccessToken | EntityRefreshToken | EntityIDToken | EntityAccount
| EntityAppMetadata.

(** Modelled from the spec: the Storage Port is an external collaborator.
    This one keeps every entity type in a list, newest first.  A read
    takes the first entry under any of the aliases; a refresh token with a
    family id is shared by the clients of the family, one without is
    scoped to its client id.  [fault] makes the writes of an entity type
    fail with the given error. *)
Record Store : Type := mkStore {
  accessTokens : list accessTokenCacheItem.t;
  refreshTokens : list refreshTokenCacheItem.t;
  idTokens : list idTokenCacheItem.t;
  accounts : list Account.t;
  appMetadatas : list appMetadata.t;
  fault : Entity -> option error
}.

Definition inAliases (environment : string) (envAliases : list string) : bool :=
  existsb (String.eqb environment) envAliases.

Definition matchAccessToken (homeAccountID : string) (envAliases : list string)
    (realm clientID : string) (scopes : list string)
    (a : accessTokenCacheItem.t) : bool :=
  (accessTokenCacheItem.HomeAccountID a =? homeAccountID)%string
  && inAliases (accessTokenCacheItem.Environment a) envAliases
  && (accessTokenCacheItem.Realm a =? realm)%string
  && (accessTokenCacheItem.ClientID a =? clientID)%string
  && (accessTokenCacheItem.Scopes a =? ConcatenateScopes scopes)%string.

Definition matchRefreshToken (homeAccountID : string) (envAliases : list string)
    (familyID clientID : string) (r : refreshTokenCacheItem.t) : bool :=
  (refreshTokenCacheItem.HomeAccountID r =? homeAccountID)%string
  && inAliases (refreshTokenCacheItem.Environment r) envAliases
  && (if is_empty familyID
      then (refreshTokenCacheItem.ClientID r =? clientID)%string
      else (refreshTokenCacheItem.FamilyID r =? familyID)%string).

Definition matchIDToken (homeAccountID : string) (envAliases : list string)
    (realm clientID : string) (i : idTokenCacheItem.t) : bool :=
  (idTokenCacheItem.HomeAccountID i =? homeAccountID)%string
  && inAliases (idTokenCacheItem.Environment i) envAliases
  && (idTokenCacheItem.Realm i =? realm)%string
  && (idTokenCacheItem.ClientID i =? clientID)%string.

Definition matchAccount (homeAccountID : string) (envAliases : list string)
    (realm : string) (a : Account.t) : bool :=
  (Account.HomeAccountID a =? homeAccountID)%string
  && inAliases (Account.Environment a) envAliases
  && (Account.Realm a =? realm)%string.

Definition matchAppMetadata (envAliases : list string) (clientID : string)
    (a : appMetadata.t) : bool :=
  inAliases (appMetadata.Environment a) envAliases
  && (appMetadata.ClientID a =? clientID)%string.

Definition write (e : Entity) (put : Store -> Store) (s : Store)
    : option error * Store :=
  match fault s e with
  | Some err => (Some err, s)
  | None => (None, put s)
  end.

Definition hasType (t : CredentialType) (types : list CredentialType) : bool :=
  existsb
    (fun u =>
       match t, u with
       | CredentialTypeOauth2RefreshToken, CredentialTypeOauth2RefreshToken
       | CredentialTypeOauth2AccessToken, CredentialTypeOauth2AccessToken =>
           true
       | _, _ => false
       end)
    types.

(** Deletion removes the credentials of the given types stored under the
    given keys, and reports failure when there was nothing to remove. *)
Definition delete (homeAccountID environment realm clientID target : string)
    (types : list CredentialType) (s : Store)
    : (OperationStatus.t * option error) * Store :=
  let dropA a :=
    hasType CredentialTypeOauth2AccessToken types
    && matchAccessToken homeAccountID [environment] realm clientID [target] a in
  let dropR r :=
    hasType CredentialTypeOauth2RefreshToken types
    && matchRefreshToken homeAccountID [environment] "" clientID r in
  let found := existsb dropA (accessTokens s) || existsb dropR (refreshTokens s) in
  ((OperationStatus.mk
      (if found then OperationStatusTypeSuccess
       else OperationStatusTypeFailure),
    None),
   mkStore (filter (fun a => negb (dropA a)) (accessTokens s))
     (filter (fun r => negb (dropR r)) (refreshTokens s))
     (idTokens s) (accounts s) (appMetadatas s) (fault s)).

#[export] Instance storage : IStorageManager Store := {|
  ReadAccessToken h al r c sc s :=
    (find (matchAccessToken h al r c sc) (accessTokens s), s);
  ReadRefreshToken h al f c s :=
    (find (matchRefreshToken h al f c) (refreshTokens s), s);
  ReadIDToken h al r c s := (find (matchIDToken h al r c) (idTokens s), s);
  ReadAccount h al r s := (find (matchAccount h al r) (accounts s), s);
  ReadAllAccounts s := (accounts s, s);
  ReadAppMetadata al c s := (find (matchAppMetadata al c) (appMetadatas s), s);
  WriteAccessToken a :=
    write EntityAccessToken (fun s =>
      mkStore (a :: accessTokens s) (refreshTokens s) (idTokens s)
        (accounts s) (appMetadatas s) (fault s));
  WriteRefreshToken r :=
    write EntityRefreshToken (fun s =>
      mkStore (accessTokens s) (r :: refreshTokens s) (idTokens s)
        (accounts s) (appMetadatas s) (fault s));
  WriteIDToken i :=
    write EntityIDToken (fun s =>
      mkStore (accessTokens s) (refreshTokens s) (i :: idTokens s)
        (accounts s) (appMetadatas s) (fault s));
  WriteAccount a :=
    write EntityAccount (fun s =>
      mkStore (accessTokens s) (refreshTokens s) (idTokens s)
        (a :: accounts s) (appMetadatas s) (fault s));
  WriteAppMetadata a :=
    write EntityAppMetadata (fun s =>
      mkStore (accessTokens s) (refreshTokens s) (idTokens s)
        (accounts s) (a :: appMetadatas s) (fault s));
  DeleteCredentials _ h e r c _ t types := delete h e r c t types
|}.

Definition noFault : Entity -> option error := fun _ => None.

Definition emptyStore : Store := mkStore [] [] [] [] [] noFault.

(** A clock that starts at 1700000000 and advances by one second at each
    reading. *)
Definition tick (n : nat) : Z := 1700000000 + Z.of_nat n.

Definition world (s : Store) : World Store := mkWorld s [] [] tick O.

(** The resolver of an authority with two aliases, and one that fails. *)
Definition contosoAliases : list string :=
  ["login.contoso.com"; "login.contoso.net"].

Definition resolver : requests.IWebRequestManager :=
  {| requests.resolve _ :=
       inl (requests.InstanceDiscoveryMetadata.mk contosoAliases) |}.

Definition noAliasResolver : requests.IWebRequestManager :=
  {| requests.resolve _ := inl (requests.InstanceDiscoveryMetadata.mk []) |}.

Definition failingResolver : requests.IWebRequestManager :=
  {| requests.resolve _ := inr (errors_New "instance discovery failed") |}.

Definition authority : AuthorityInfo.t :=
  AuthorityInfo.mk "login.contoso.com" "tenant" "MSSTS".

(** Request parameters of the clients ["A"] and ["B"] for the same user. *)
Definition paramsOf (clientID homeAccountID : string)
    : AuthParametersInternal.t :=
  AuthParametersInternal.mk authority clientID homeAccountID "user" "secret"
    ["user.read"].

Definition idTokenJwt : IDToken.t :=
  IDToken.mk "header.payload.signature" "user@contoso.com" "oid" "sub".

(** A token response for the user ["uid.utid"], with a refresh token of
    family [familyID]. *)
Definition responseOf (accessToken refreshToken familyID : string)
    (expiresOn : Z) : TokenResponse.t :=
  TokenResponse.mk accessToken refreshToken idTokenJwt familyID ["user.read"]
    expiresOn (expiresOn + 3600) (ClientInfo.mk "uid" "utid").

End memory.

(** ** Vocabulary of the statements *)

Module props.

Import msalbase tokencache.

(** The decimal literal [s] parses as the [int64] [n]. *)
Definition parses (s : string) (n : Z) : Prop :=
  strconv.ParseInt s = (n, None).

(** The reading the wall clock returns next. *)
Definition nextReading {S : Type} (w : World S) : Z :=
  clock w (clockReads w).

(** The buffer of five minutes can be added to [now] within [int64]. *)
Definition bufferFits (now : Z) : Prop :=
  int64_min <= now /\ now + 300 <= int64_max.

(** An access token is usable at time [now]: both timestamps parse, it
    was not cached in the future and expires more than 300 seconds from
    now. *)
Definition usableAt (now : Z) (a : accessTokenCacheItem.t) : Prop :=
  exists cachedAt expiresOn,
    parses (accessTokenCacheItem.CachedAt a) cachedAt
    /\ parses (accessTokenCacheItem.ExpiresOnUnixTimestamp a) expiresOn
    /\ cachedAt <= now
    /\ expiresOn > now + 300.

Definition errMissingReadKey : error :=
  errors_New
    "Skipping the tokens cache lookup, one of the primary keys is empty".

Definition errMissingWriteKey : error :=
  errors_New
    "Skipping writing data to the tokens cache, one of the primary keys is empty".

Definition errMissingDeleteKey : error :=
  errors_New
    "Failed to delete refresh token from the cache, one of the primary keys is empty".

(** No method of the storage manager was called between [w] and [w']. *)
Definition noStorageAccess {S : Type} (w w' : World S) : Prop :=
  journal w' = journal w /\ storageManager w' = storageManager w.

(** One of the keys of the read path is empty. *)
Definition readKeyMissing (p : AuthParametersInternal.t)
    (metadata : requests.InstanceDiscoveryMetadata.t) : Prop :=
  AuthParametersInternal.HomeaccountID p = ""
  \/ requests.InstanceDiscoveryMetadata.Aliases metadata = []
  \/ AuthorityInfo.UserRealmURIPrefix (AuthParametersInternal.AuthorityInfo p) = ""
  \/ AuthParametersInternal.ClientID p = ""
  \/ AuthParametersInternal.Scopes p = [].

(** One of the keys of the write path is empty; the home-account id is
    the one derived from the token response. *)
Definition writeKeyMissing {TM : Methods} (p : AuthParametersInternal.t)
    (tr : TokenResponse.t) : Prop :=
  GetHomeAccountIDFromClientInfo tr = ""
  \/ AuthorityInfo.Host (AuthParametersInternal.AuthorityInfo p) = ""
  \/ AuthorityInfo.UserRealmURIPrefix (AuthParametersInternal.AuthorityInfo p) = ""
  \/ AuthParametersInternal.ClientID p = ""
  \/ ConcatenateScopes (TokenResponse.GrantedScopes tr) = "".

(** The family id a client resolves to: that of its app metadata, empty
    when there is none. *)
Definition familyOf (a : option appMetadata.t) : string :=
  match a with
  | None => ""
  | Some m => appMetadata.FamilyID m
  end.

(** The access token the read path hands out: the one found, when the
    evaluator accepts it. *)
Definition handedOut {S : Type} (found : option accessTokenCacheItem.t) (w : World S)
    : option accessTokenCacheItem.t :=
  match found with
  | Some a => if fst (cacheManager.isAccessTokenValid a w) then Some a else None
  | None => None
  end.

(** The second reading of the wall clock from [w] on. *)
Definition secondReading {S : Type} (w : World S) : Z :=
  clock w (Datatypes.S (clockReads w)).

(** The access token item the write path builds from a response, with
    the given cached-at time. *)
Definition accessTokenOf {TM : Methods} (p : AuthParametersInternal.t)
    (tr : TokenResponse.t) (cachedAt : Z) : accessTokenCacheItem.t :=
  CreateAccessTokenCacheItem (GetHomeAccountIDFromClientInfo tr)
    (AuthorityInfo.Host (AuthParametersInternal.AuthorityInfo p))
    (AuthorityInfo.UserRealmURIPrefix (AuthParametersInternal.AuthorityInfo p))
    (AuthParametersInternal.ClientID p) cachedAt
    (time.Unix (TokenResponse.ExpiresOn tr))
    (time.Unix (TokenResponse.ExtExpiresOn tr))
    (ConcatenateScopes (TokenResponse.GrantedScopes tr))
    (TokenResponse.AccessToken tr).

(** The error a write call returned, if any. *)
Definition writeError (c : StorageCall) : option error :=
  match c with
  | CallWriteAccessToken _ r | CallWriteRefreshToken _ r
  | CallWriteIDToken _ r | CallWriteAccount _ r
  | CallWriteAppMetadata _ r => r
  | _ => None
  end.

Definition isIDTokenWrite (c : StorageCall) : bool :=
  match c with
  | CallWriteIDToken _ _ => true
  | _ => false
  end.

End props.

(** ** Concrete runs on the in-memory collaborators *)

Module runs.

Import msalbase tokencache cacheManager memory.

Definition start : World Store := world emptyStore.

Definition freshToken : accessTokenCacheItem.t :=
  CreateAccessTokenCacheItem "uid.utid" "login.contoso.com" "tenant" "A"
    1700000000 1700000301 1700003901 "user.read" "at-secret".

Definition edgeToken : accessTokenCacheItem.t :=
  CreateAccessTokenCacheItem "uid.utid" "login.contoso.com" "tenant" "A"
    1700000000 1700000300 1700003900 "user.read" "at-secret".

(** Client ["B"] signs the user in and gets tokens of family ["F"]. *)
Definition responseB : TokenResponse.t :=
  responseOf "at-secret" "rt-secret" "F" 1700003600.

Definition afterB : World Store :=
  snd (CacheTokenResponse (paramsOf "B" "") responseB start).

(** Client ["A"], of the same family, gets a response without tokens. *)
Definition responseA : TokenResponse.t := responseOf "" "" "F" 1700000000.

Definition afterA : World Store :=
  snd (CacheTokenResponse (paramsOf "A" "") responseA afterB).

(** The storage of [afterB], looked at an hour later: the access token
    is still there and expires in 200 seconds. *)
Definition later : World Store :=
  mkWorld (storageManager afterB) [] []
    (fun n => 1700003400 + Z.of_nat n) O.

(** A response whose access token has already expired. *)
Definition expiredResponse : TokenResponse.t :=
  responseOf "at-secret" "rt-secret" "" 1700000000.

(** A storage whose ID-token writes fail. *)
Definition idTokenFault : Entity -> option error :=
  fun e =>
    match e with
    | EntityIDToken => Some (errors_New "disk full")
    | _ => None
    end.

Definition faulty : World Store :=
  world (mkStore [] [] [] [] [] idTokenFault).

Definition metadata : requests.InstanceDiscoveryMetadata.t :=
  requests.InstanceDiscoveryMetadata.mk contosoAliases.

End runs.

(** ** Vocabulary of the further properties *)

Module shape.

Import msalbase tokencache.

(** The call is one of the six read methods. *)
Definition isRead (c : StorageCall) : bool :=
  match c with
  | CallReadAccessToken _ _ _ _ _ _ | CallReadRefreshToken _ _ _ _ _
  | CallReadIDToken _ _ _ _ _ | CallReadAccount _ _ _ _
  | CallReadAllAccounts _ | CallReadAppMetadata _ _ _ => true
  | _ => false
  end.

(** Place of a write call in the order of the write path; 0 for any other
    call. *)
Definition writeRank (c : StorageCall) : nat :=
  match c with
  | CallWriteRefreshToken _ _ => 1
  | CallWriteAccessToken _ _ => 2
  | CallWriteIDToken _ _ => 3
  | CallWriteAccount _ _ => 4
  | CallWriteAppMetadata _ _ => 5
  | _ => 0
  end.

(** The numbers of [l] grow strictly, from above [lo]. *)
Fixpoint ascending (lo : nat) (l : list nat) : bool :=
  match l with
  | [] => true
  | n :: rest => (lo <? n)%nat && ascending n rest
  end.



(** The items the write path builds from the request and the response. *)
Definition refreshTokenOf {TM : Methods} (p : AuthParametersInternal.t)
    (tr : TokenResponse.t) : refreshTokenCacheItem.t :=
  CreateRefreshTokenCacheItem (GetHomeAccountIDFromClientInfo tr)
    (AuthorityInfo.Host (AuthParametersInternal.AuthorityInfo p))
    (AuthParametersInternal.ClientID p) (TokenResponse.RefreshToken tr)
    (TokenResponse.FamilyID tr).

Definition idTokenOf {TM : Methods} (p : AuthParametersInternal.t)
    (tr : TokenResponse.t) : idTokenCacheItem.t :=
  CreateIDTokenCacheItem (GetHomeAccountIDFromClientInfo tr)
    (AuthorityInfo.Host (AuthParametersInternal.AuthorityInfo p))
    (AuthorityInfo.UserRealmURIPrefix (AuthParametersInternal.AuthorityInfo p))
    (AuthParametersInternal.ClientID p)
    (IDToken.RawToken (TokenResponse.IDToken tr)).

Definition accountOf {TM : Methods} (p : AuthParametersInternal.t)
    (tr : TokenResponse.t) : Account.t :=
  CreateAccount (GetHomeAccountIDFromClientInfo tr)
    (AuthorityInfo.Host (AuthParametersInternal.AuthorityInfo p))
    (AuthorityInfo.UserRealmURIPrefix (AuthParametersInternal.AuthorityInfo p))
    (GetLocalAccountID (TokenResponse.IDToken tr))
    (AuthorityInfo.AuthorityType (AuthParametersInternal.AuthorityInfo p))
    (IDToken.PreferredUsername (TokenResponse.IDToken tr)).

Definition appMetadataOf (p : AuthParametersInternal.t)
    (tr : TokenResponse.t) : appMetadata.t :=
  CreateAppMetadata (TokenResponse.FamilyID tr)
    (AuthParametersInternal.ClientID p)
    (AuthorityInfo.Host (AuthParametersInternal.AuthorityInfo p)).

(** Every read method of the storage manager leaves its state as it
    is. *)
Definition readsKeepState {S : Type} (SM : IStorageManager S) : Prop :=
  (forall h al r cl sc s, snd (ReadAccessToken h al r cl sc s) = s)
  /\ (forall h al f cl s, snd (ReadRefreshToken h al f cl s) = s)
  /\ (forall h al r cl s, snd (ReadIDToken h al r cl s) = s)
  /\ (forall h al r s, snd (ReadAccount h al r s) = s)
  /\ (forall al cl s, snd (ReadAppMetadata al cl s) = s).

End shape.

(** Inputs of further concrete runs. *)

Module cases.

Import msalbase tokencache cacheManager memory runs.

(** Like [freshToken], with another secret and no extended expiry. *)
Definition otherToken : accessTokenCacheItem.t :=
  accessTokenCacheItem.mk "uid.utid" "login.contoso.com" "tenant" "A"
    "other-secret" "user.read" "1700000000" "1700000301" "0".

(** A storage whose account writes fail. *)
Definition accountFault : Entity -> option error :=
  fun e =>
    match e with
    | EntityAccount => Some (errors_New "quota exceeded")
    | _ => None
    end.

Definition noAccounts : World Store :=
  world (mkStore [] [] [] [] [] accountFault).

(** The request parameters as the write path of client ["B"] leaves
    them. *)
Definition paramsAfterB : AuthParametersInternal.t :=
  fst (fst (CacheTokenResponse (paramsOf "B" "") responseB start)).

End cases.

(** * Properties *)

(** ** [strconv]: formatting then parsing *)

Section Strconv.

Import strconv.

Lemma digit_char_spec (d : Z) :
  0 <= d < 10 ->
  is_digit (digit_char d) = true
  /\ digit_val (digit_char d) = d
  /\ Ascii.eqb (digit_char d) "+" = false
  /\ Ascii.eqb (digit_char d) "-" = false.
Proof.
  intros H.
  assert (d = 0 \/ d = 1 \/ d = 2 \/ d = 3 \/ d = 4 \/ d = 5 \/ d = 6
          \/ d = 7 \/ d = 8 \/ d = 9) as Hd by lia.
  repeat (destruct Hd as [-> | Hd]); try subst d; vm_compute; auto.
Qed.

(** Reading back the digits [format_loop] wrote in front of [acc]. *)
Lemma parse_format_loop (fuel : nat) :
  forall (u : Z) (acc : string),
    0 <= u <= uint64_max -> u < 10 ^ Z.of_nat fuel ->
    parse_loop (format_loop fuel u acc) 0 = parse_loop acc u.
Proof.
  induction fuel as [|fuel IH]; intros u acc Hu Hlt.
  - simpl in Hlt. assert (u = 0) by lia. subst. reflexivity.
  - cbn [format_loop].
    assert (Hm : 0 <= u mod 10 < 10) by (apply Z.mod_pos_bound; lia).
    destruct (digit_char_spec _ Hm) as (Hd & Hv & _).
    destruct (u <? 10) eqn:Hsmall.
    + apply Z.ltb_lt in Hsmall. cbn [parse_loop]. rewrite Hd. cbn [negb].
      rewrite Hv, Z.mod_small by lia.
      change (cutoff <=? 0) with false. cbv iota.
      replace (uint64_max <? 0 * 10 + u) with false; [f_equal|].
      symmetry. apply Z.ltb_ge. unfold uint64_max in *. lia.
    + apply Z.ltb_ge in Hsmall.
      rewrite IH.
      * cbn [parse_loop]. rewrite Hd. cbn [negb]. rewrite Hv.
        assert (Hdiv : u = 10 * (u / 10) + u mod 10) by (apply Z.div_mod; lia).
        replace (cutoff <=? u / 10) with false.
        2:{ symmetry. apply Z.leb_gt. unfold cutoff, uint64_max in *.
            change (2 ^ 64 - 1) with 18446744073709551615 in *.
            change (18446744073709551615 / 10 + 1) with 1844674407370955162.
            lia. }
        replace (u / 10 * 10 + u mod 10) with u by lia.
        replace (uint64_max <? u) with false; [reflexivity|].
        symmetry. apply Z.ltb_ge. lia.
      * split; [apply Z.div_pos; lia|].
        assert (u / 10 <= u) by (apply Z.div_le_upper_bound; lia). lia.
      * rewrite Nat2Z.inj_succ, Z.pow_succ_r in Hlt by lia.
        apply Z.div_lt_upper_bound; lia.
Qed.

(** The digits start with a digit, not with a sign. *)
Lemma format_loop_head (fuel : nat) :
  forall (u : Z) (acc : string),
    0 <= u ->
    exists c rest,
      format_loop (Datatypes.S fuel) u acc = String c rest
      /\ Ascii.eqb c "+" = false /\ Ascii.eqb c "-" = false.
Proof.
  induction fuel as [|fuel IH]; intros u acc Hu.
  - assert (Hm : 0 <= u mod 10 < 10) by (apply Z.mod_pos_bound; lia).
    destruct (digit_char_spec _ Hm) as (_ & _ & Hp & Hn).
    cbn [format_loop]. destruct (u <? 10); eauto.
  - assert (Hm : 0 <= u mod 10 < 10) by (apply Z.mod_pos_bound; lia).
    destruct (digit_char_spec _ Hm) as (_ & _ & Hp & Hn).
    change (format_loop (Datatypes.S (Datatypes.S fuel)) u acc)
      with (if u <? 10 then String (digit_char (u mod 10)) acc
            else format_loop (Datatypes.S fuel) (u / 10)
                   (String (digit_char (u mod 10)) acc)).
    destruct (u <? 10); eauto.
    apply IH. apply Z.div_pos; lia.
Qed.

Lemma ParseUint_format (u : Z) :
  0 <= u <= uint64_max -> ParseUint (format_loop 20 u "") = (u, None).
Proof.
  intros Hu. unfold ParseUint.
  destruct (format_loop_head 19 u "") as (c & rest & E & _); [lia|].
  rewrite E at 1. cbn [is_empty String.eqb].
  rewrite parse_format_loop; [reflexivity | exact Hu |].
  unfold uint64_max in Hu. change (10 ^ Z.of_nat 20) with 100000000000000000000.
  change (2 ^ 64 - 1) with 18446744073709551615 in Hu. lia.
Qed.

(** Round trip: an [int64] written by [FormatInt] is read back by
    [ParseInt]. *)
Lemma ParseInt_FormatInt (i : Z) :
  is_int64 i -> ParseInt (FormatInt i) = (i, None).
Proof.
  unfold is_int64, int64_min, int64_max.
  change (2 ^ 63) with 9223372036854775808. intros Hi.
  unfold FormatInt. destruct (i <? 0) eqn:Hneg.
  - apply Z.ltb_lt in Hneg. unfold ParseInt.
    change (Ascii.eqb "-" "+") with false.
    change (Ascii.eqb "-" "-") with true. cbv iota.
    rewrite ParseUint_format
      by (unfold uint64_max; change (2 ^ 64 - 1) with 18446744073709551615; lia).
    cbn [negb andb]. change (2 ^ 63) with 9223372036854775808.
    replace (9223372036854775808 <? - i) with false
      by (symmetry; apply Z.ltb_ge; lia).
    f_equal. lia.
  - apply Z.ltb_ge in Hneg.
    destruct (format_loop_head 19 i "") as (c & rest & E & Hp & Hn); [lia|].
    unfold ParseInt. rewrite E. rewrite Hp, Hn. rewrite <- E.
    rewrite ParseUint_format
      by (unfold uint64_max; change (2 ^ 64 - 1) with 18446744073709551615; lia).
    cbn [negb andb]. change (2 ^ 63) with 9223372036854775808.
    replace (9223372036854775808 <=? i) with false
      by (symmetry; apply Z.leb_gt; lia).
    reflexivity.
Qed.

End Strconv.

(** ** The validity evaluator *)

Section ValidityEvaluator.

Import tokencache cacheManager props.

Context {S : Type}.

Lemma wrap64_id (z : Z) : int64_min <= z <= int64_max -> wrap64 z = z.
Proof.
  unfold wrap64, int64_min, int64_max. intros H.
  rewrite Z.mod_small; lia.
Qed.

Lemma add64_buffer (now : Z) : bufferFits now -> add64 now 300 = now + 300.
Proof.
  unfold bufferFits, add64. intros [H1 H2].
  apply wrap64_id. unfold int64_min, int64_max in *. lia.
Qed.

(** The evaluator touches neither the storage manager nor the journal,
    and reads the clock at most once. *)
Lemma isAccessTokenValid_frame (a : accessTokenCacheItem.t) (w : World S) :
  let w' := snd (isAccessTokenValid a w) in
  storageManager w' = storageManager w
  /\ journal w' = journal w
  /\ clock w' = clock w
  /\ (clockReads w' = clockReads w \/ clockReads w' = Datatypes.S (clockReads w)).
Proof.
  unfold isAccessTokenValid, bind, ret, log, time_Now_Unix.
  destruct (strconv.ParseInt (accessTokenCacheItem.CachedAt a)) as [c [e|]];
    simpl; auto.
  destruct (c >? _); simpl; auto.
  destruct (strconv.ParseInt _) as [x [e|]]; simpl; auto.
  destruct (x <=? _); simpl; auto.
Qed.

(** The world the evaluator leaves: only the log and the number of clock
    readings may have changed. *)
Lemma isAccessTokenValid_run (a : accessTokenCacheItem.t) (w w' : World S)
    (v : bool) :
  isAccessTokenValid a w = (v, w') ->
  exists l r, w' = mkWorld (storageManager w) (journal w) l (clock w) r.
Proof.
  unfold isAccessTokenValid, bind, ret, log, time_Now_Unix.
  destruct (strconv.ParseInt (accessTokenCacheItem.CachedAt a)) as [c [e|]];
    simpl.
  { intros H; inversion H; eauto. }
  destruct (c >? _); simpl.
  { intros H; inversion H; eauto. }
  destruct (strconv.ParseInt _) as [x [e|]]; simpl.
  { intros H; inversion H; eauto. }
  destruct (x <=? _); simpl; intros H; inversion H; eauto.
Qed.

(** What the evaluator answers, as a function of the next clock reading. *)
Lemma isAccessTokenValid_true (a : accessTokenCacheItem.t) (w : World S) :
  bufferFits (nextReading w) ->
  fst (isAccessTokenValid a w) = true <-> usableAt (nextReading w) a.
Proof.
  intros Hfit. unfold usableAt, parses, nextReading in *.
  unfold isAccessTokenValid, bind, ret, log, time_Now_Unix.
  destruct (strconv.ParseInt (accessTokenCacheItem.CachedAt a)) as [c [e|]];
    simpl.
  - split; [discriminate|]. intros (c' & e' & H & _). discriminate.
  - destruct (c >? clock w (clockReads w)) eqn:Hc; simpl.
    + split; [discriminate|]. intros (c' & e' & H & _ & Hle & _).
      inversion H; subst. apply Z.gtb_lt in Hc. lia.
    + destruct (strconv.ParseInt _) as [x [e|]]; simpl.
      * split; [discriminate|]. intros (c' & e' & _ & H & _). discriminate.
      * rewrite (add64_buffer _ Hfit).
        destruct (x <=? _) eqn:Hx; simpl.
        -- split; [discriminate|]. intros (c' & e' & _ & H & _ & Hgt).
           inversion H; subst. apply Z.leb_le in Hx. lia.
        -- split; [|reflexivity]. intros _. exists c, x.
           apply Z.leb_gt in Hx.
           assert (c <= clock w (clockReads w)).
           { destruct (Z.gtb_spec c (clock w (clockReads w))); [discriminate|lia]. }
           repeat split; auto; lia.
Qed.

(** C1.  Under a clock reading [now] to which the five-minute buffer can
    be added, the evaluator judges an access token valid if and only if
    its cached-at and expires-on fields both parse as integers,
    cached_at <= now and expires_on > now + 300.  In particular
    expires_on = now + 300 is invalid and expires_on = now + 301 is valid;
    a parse failure of either field, or a cached-at strictly in the
    future, makes the token invalid. *)
Theorem validity_evaluator_iff (a : accessTokenCacheItem.t) (w : World S) :
  bufferFits (nextReading w) ->
  let now := nextReading w in
  let valid := fst (isAccessTokenValid a w) in
  (valid = true <-> usableAt now a)
  /\ (forall c,
        parses (accessTokenCacheItem.CachedAt a) c -> c <= now ->
        parses (accessTokenCacheItem.ExpiresOnUnixTimestamp a) (now + 300) ->
        valid = false)
  /\ (forall c,
        parses (accessTokenCacheItem.CachedAt a) c -> c <= now ->
        parses (accessTokenCacheItem.ExpiresOnUnixTimestamp a) (now + 301) ->
        valid = true)
  /\ (snd (strconv.ParseInt (accessTokenCacheItem.CachedAt a)) <> None
       \/ snd (strconv.ParseInt
                 (accessTokenCacheItem.ExpiresOnUnixTimestamp a)) <> None ->
       valid = false)
  /\ (forall c,
        parses (accessTokenCacheItem.CachedAt a) c -> now < c ->
        valid = false).
Proof.
  intros Hfit now valid.
  pose proof (isAccessTokenValid_true a w Hfit) as Hiff.
  fold now valid in Hiff.
  assert (Hnot : ~ usableAt now a -> valid = false).
  { intros Hn. destruct valid; [|reflexivity].
    exfalso. apply Hn, Hiff. reflexivity. }
  split; [exact Hiff|].
  unfold usableAt, parses in *.
  repeat split.
  - intros c Hc Hle He. apply Hnot. intros (c' & e' & _ & He' & _ & Hgt).
    rewrite He in He'. inversion He'. lia.
  - intros c Hc Hle He. apply Hiff. exists c, (now + 301).
    repeat split; auto; lia.
  - intros Hfail. apply Hnot. intros (c' & e' & Hc' & He' & _).
    rewrite Hc', He' in Hfail. simpl in Hfail. tauto.
  - intros c Hc Hlt. apply Hnot. intros (c' & e' & Hc' & _ & Hle & _).
    rewrite Hc in Hc'. inversion Hc'. lia.
Qed.

End ValidityEvaluator.

(** Symbolic execution of a run equation [H : m w = (res, w')]: unfold
    the monad, split on every call and branch; the evaluator is kept
    folded and replaced by its answer. *)
Ltac exec H :=
  repeat first
    [ progress (unfold tokencache.bind, tokencache.ret, cacheManager.log,
                  cacheManager.call, cacheManager.time_Now_Unix in H)
    | progress (cbn [fst snd tokencache.storageManager tokencache.journal
                     tokencache.logged tokencache.clock tokencache.clockReads] in H)
    | match type of H with
      | context [cacheManager.isAccessTokenValid ?a ?w] =>
          let v := fresh "valid" in
          let w2 := fresh "w" in
          let Ev := fresh "Ev" in
          let l := fresh "l" in
          let r := fresh "r" in
          let E := fresh "E" in
          destruct (cacheManager.isAccessTokenValid a w) as [v w2] eqn:Ev;
          destruct (isAccessTokenValid_run a w w2 v Ev) as (l & r & E);
          subst w2
      | context [if ?b then _ else _] =>
          let T := type of b in
          constr_eq T bool; destruct b eqn:?; cbv beta in H
      | context [match ?x with _ => _ end] =>
          lazymatch x with
          | context [match _ with _ => _ end] => fail
          | _ => destruct x eqn:?
          end
      end ].


Section ReadPath.

Import msalbase tokencache cacheManager props.

Context {S : Type} {SM : IStorageManager S} {TM : Methods}.

Lemma is_empty_true (s : string) : is_empty s = true <-> s = "".
Proof. unfold is_empty. apply String.eqb_eq. Qed.

Lemma length_zero {A : Type} (l : list A) : (length l =? 0)%nat = true <-> l = [].
Proof. destruct l; simpl; split; intros H; try reflexivity; discriminate. Qed.

(** The guard of [TryReadCache] fires exactly when a key is missing. *)
Lemma read_guard (p : AuthParametersInternal.t)
    (metadata : requests.InstanceDiscoveryMetadata.t) :
  is_empty (AuthParametersInternal.HomeaccountID p)
  || (length (requests.InstanceDiscoveryMetadata.Aliases metadata) =? 0)%nat
  || is_empty (AuthorityInfo.UserRealmURIPrefix
                 (AuthParametersInternal.AuthorityInfo p))
  || is_empty (AuthParametersInternal.ClientID p)
  || (length (AuthParametersInternal.Scopes p) =? 0)%nat = true
  <-> readKeyMissing p metadata.
Proof.
  unfold readKeyMissing.
  rewrite !orb_true_iff, !is_empty_true, !length_zero. tauto.
Qed.

(** The answer of the evaluator depends on the clock only. *)
Lemma isAccessTokenValid_clock (a : accessTokenCacheItem.t) (w w' : World S) :
  clock w = clock w' -> clockReads w = clockReads w' ->
  fst (isAccessTokenValid a w) = fst (isAccessTokenValid a w').
Proof.
  intros Hc Hr.
  unfold isAccessTokenValid, bind, ret, log, time_Now_Unix.
  destruct (strconv.ParseInt (accessTokenCacheItem.CachedAt a)) as [c [e|]];
    simpl; auto.
  rewrite Hc, Hr.
  destruct (c >? _); simpl; auto.
  destruct (strconv.ParseInt _) as [x [e|]]; simpl; auto.
  destruct (x <=? _); simpl; auto.
Qed.

(** A run of [TryReadCache] with resolved aliases and no key missing:
    five reads, in this order, each on the storage state the previous one
    left, and a response built from their results. *)
Lemma TryReadCache_reads (p : AuthParametersInternal.t)
    (wrm : requests.IWebRequestManager) (w : World S)
    (metadata : requests.InstanceDiscoveryMetadata.t) :
  requests.resolve wrm (AuthParametersInternal.AuthorityInfo p) = inl metadata ->
  ~ readKeyMissing p metadata ->
  let h := AuthParametersInternal.HomeaccountID p in
  let al := requests.InstanceDiscoveryMetadata.Aliases metadata in
  let r := AuthorityInfo.UserRealmURIPrefix (AuthParametersInternal.AuthorityInfo p) in
  let c := AuthParametersInternal.ClientID p in
  let sc := AuthParametersInternal.Scopes p in
  let '(found, s1) := ReadAccessToken h al r c sc (storageManager w) in
  let '(idt, s2) := ReadIDToken h al r c s1 in
  let '(am, s3) := ReadAppMetadata al c s2 in
  let '(rt, s4) := ReadRefreshToken h al (familyOf am) c s3 in
  let '(acc, s5) := ReadAccount h al r s4 in
  fst (TryReadCache p wrm w)
  = (p, (Some (CreateStorageTokenResponse (handedOut found w) rt idt acc), None))
  /\ journal (snd (TryReadCache p wrm w))
     = (journal w
       ++ [CallReadAccessToken h al r c sc found; CallReadIDToken h al r c idt;
           CallReadAppMetadata al c am;
           CallReadRefreshToken h al (familyOf am) c rt;
           CallReadAccount h al r acc])%list
  /\ storageManager (snd (TryReadCache p wrm w)) = s5.
Proof.
  intros Hres Hkeys. cbv zeta.
  destruct (ReadAccessToken _ _ _ _ _ _) as [found s1] eqn:E1.
  destruct (ReadIDToken _ _ _ _ _) as [idt s2] eqn:E2.
  destruct (ReadAppMetadata _ _ _) as [am s3] eqn:E3.
  destruct (ReadRefreshToken _ _ _ _ _) as [rt s4] eqn:E4.
  destruct (ReadAccount _ _ _ _) as [acc s5] eqn:E5.
  destruct (TryReadCache p wrm w) as [res wf] eqn:Hrun.
  unfold TryReadCache, requests.GetMetadataEntry,
    requests.CreateAadInstanceDiscovery in Hrun.
  cbn [requests.webRequestManager] in Hrun.
  rewrite Hres in Hrun.
  destruct (_ || _) eqn:Hg in Hrun.
  { apply read_guard in Hg. contradiction. }
  clear Hg.
  unfold bind at 1 in Hrun. unfold log at 1 in Hrun. cbv beta iota in Hrun.
  unfold bind at 1 in Hrun. unfold call at 1 in Hrun.
  cbn [storageManager journal logged clock clockReads] in Hrun.
  rewrite E1 in Hrun.
  match type of Hrun with
  | context [bind _ _ ?x] => set (w1 := x) in Hrun
  end.
  pose proof (fun a => isAccessTokenValid_frame a w1) as F.
  pose proof (fun a => isAccessTokenValid_clock a w w1 eq_refl eq_refl) as C.
  unfold bind at 1 in Hrun.
  assert (Hh : exists w2,
    (match found with
     | Some at_ => valid <- isAccessTokenValid at_ ;;
                  if negb valid then ret None else ret (Some at_)
     | None => ret None
     end)%go w1 = (handedOut found w, w2)
    /\ storageManager w2 = s1 /\ journal w2 = journal w1).
  { destruct found as [a|]; simpl.
    - unfold bind, ret. specialize (F a). specialize (C a).
      rewrite C. cbv zeta in F. destruct F as (F1 & F2 & _).
      destruct (isAccessTokenValid a w1) as [b w2]. simpl in *.
      exists w2. destruct b; simpl; auto.
    - exists w1. auto. }
  destruct Hh as (w2 & Hh & Hs2 & Hj2).
  rewrite Hh in Hrun.
  unfold bind, call, ret in Hrun. rewrite Hs2, Hj2 in Hrun.
  subst w1. cbn [storageManager journal logged clock clockReads] in Hrun.
  rewrite E2 in Hrun. cbn [storageManager journal logged clock clockReads] in Hrun.
  rewrite E3 in Hrun. cbn [storageManager journal logged clock clockReads] in Hrun.
  fold (familyOf am) in Hrun.
  rewrite E4 in Hrun. cbn [storageManager journal logged clock clockReads] in Hrun.
  rewrite E5 in Hrun.
  inversion Hrun; subst; clear Hrun. simpl.
  rewrite <- !app_assoc. simpl. auto.
Qed.

(** With a key missing, the read path stops at its guard. *)
Lemma TryReadCache_guarded (p : AuthParametersInternal.t)
    (wrm : requests.IWebRequestManager) (w : World S)
    (metadata : requests.InstanceDiscoveryMetadata.t) :
  requests.resolve wrm (AuthParametersInternal.AuthorityInfo p) = inl metadata ->
  readKeyMissing p metadata ->
  fst (TryReadCache p wrm w) = (p, (None, Some errMissingReadKey))
  /\ noStorageAccess w (snd (TryReadCache p wrm w)).
Proof.
  intros Hres Hkeys. apply read_guard in Hkeys.
  unfold TryReadCache, requests.GetMetadataEntry,
    requests.CreateAadInstanceDiscovery, noStorageAccess.
  cbn [requests.webRequestManager]. rewrite Hres.
  unfold bind at 1 3 5. unfold log at 1 3 5. cbv beta iota.
  rewrite Hkeys. simpl. auto.
Qed.

(** When the resolver fails, the read path returns its error at once. *)
Lemma TryReadCache_unresolved (p : AuthParametersInternal.t)
    (wrm : requests.IWebRequestManager) (w : World S) (e : error) :
  requests.resolve wrm (AuthParametersInternal.AuthorityInfo p) = inr e ->
  TryReadCache p wrm w = ((p, (None, Some e)), w).
Proof.
  intros Hres.
  unfold TryReadCache, requests.GetMetadataEntry,
    requests.CreateAadInstanceDiscovery.
  cbn [requests.webRequestManager]. rewrite Hres. reflexivity.
Qed.

Lemma readKeyMissing_dec (p : AuthParametersInternal.t)
    (metadata : requests.InstanceDiscoveryMetadata.t) :
  readKeyMissing p metadata \/ ~ readKeyMissing p metadata.
Proof.
  rewrite <- read_guard. destruct (_ || _); [left | right]; congruence.
Qed.

(** The read path assigns to no field of the request parameters. *)
Lemma TryReadCache_params (p : AuthParametersInternal.t)
    (wrm : requests.IWebRequestManager) (w : World S) :
  fst (fst (TryReadCache p wrm w)) = p.
Proof.
  destruct (TryReadCache p wrm w) as [[p' res] wf] eqn:Hrun.
  unfold TryReadCache in Hrun. exec Hrun.
  all: inversion Hrun; reflexivity.
Qed.

(** C4.  In a run of the read path that gets past its guard, the journal
    shows the app-metadata read followed by the refresh-token read, and
    the family id of the latter's key is the one of the app metadata just
    read (empty when there is none); the refresh token of the response is
    what the storage manager returns under that key.  A refresh token
    stored under family id F is therefore returned to every client whose
    app metadata maps it to F. *)
Theorem refresh_token_keyed_by_family (p : AuthParametersInternal.t)
    (wrm : requests.IWebRequestManager) (w : World S)
    (metadata : requests.InstanceDiscoveryMetadata.t) :
  requests.resolve wrm (AuthParametersInternal.AuthorityInfo p) = inl metadata ->
  ~ readKeyMissing p metadata ->
  let h := AuthParametersInternal.HomeaccountID p in
  let al := requests.InstanceDiscoveryMetadata.Aliases metadata in
  let r := AuthorityInfo.UserRealmURIPrefix (AuthParametersInternal.AuthorityInfo p) in
  let c := AuthParametersInternal.ClientID p in
  let sc := AuthParametersInternal.Scopes p in
  exists found idt am rt acc s2 s3 s4 resp,
    journal (snd (TryReadCache p wrm w))
    = (journal w
       ++ [CallReadAccessToken h al r c sc found; CallReadIDToken h al r c idt;
           CallReadAppMetadata al c am;
           CallReadRefreshToken h al (familyOf am) c rt;
           CallReadAccount h al r acc])%list
    /\ ReadAppMetadata al c s2 = (am, s3)
    /\ ReadRefreshToken h al (familyOf am) c s3 = (rt, s4)
    /\ fst (TryReadCache p wrm w) = (p, (Some resp, None))
    /\ StorageTokenResponse.RefreshToken resp = rt.
Proof.
  intros Hres Hkeys h al r c sc.
  pose proof (TryReadCache_reads p wrm w metadata Hres Hkeys) as H.
  cbv zeta in H. fold h al r c sc in H.
  destruct (ReadAccessToken h al r c sc _) as [found s1].
  destruct (ReadIDToken h al r c s1) as [idt s2].
  destruct (ReadAppMetadata al c s2) as [am s3] eqn:E3.
  destruct (ReadRefreshToken h al (familyOf am) c s3) as [rt s4] eqn:E4.
  destruct (ReadAccount h al r s4) as [acc s5].
  destruct H as (Hfst & Hj & _).
  exists found, idt, am, rt, acc, s2, s3, s4.
  eexists. repeat split; eauto.
Qed.

(** C8.  In a run of the read path with resolved aliases and no key
    missing, whatever the five reads return (any of them may be absent),
    no error is returned; the access token of the response is the one
    found when the evaluator accepts it, and none when the evaluator
    rejects it or nothing was found.  The call returns an error only when
    the resolver fails or a key is missing. *)
Theorem read_path_absent_is_not_an_error (p : AuthParametersInternal.t)
    (wrm : requests.IWebRequestManager) (w : World S) :
  (forall metadata,
      requests.resolve wrm (AuthParametersInternal.AuthorityInfo p)
      = inl metadata ->
      ~ readKeyMissing p metadata ->
      let h := AuthParametersInternal.HomeaccountID p in
      let al := requests.InstanceDiscoveryMetadata.Aliases metadata in
      let r := AuthorityInfo.UserRealmURIPrefix
                 (AuthParametersInternal.AuthorityInfo p) in
      let c := AuthParametersInternal.ClientID p in
      let sc := AuthParametersInternal.Scopes p in
      exists found idt am rt acc resp,
        journal (snd (TryReadCache p wrm w))
        = (journal w
           ++ [CallReadAccessToken h al r c sc found;
               CallReadIDToken h al r c idt; CallReadAppMetadata al c am;
               CallReadRefreshToken h al (familyOf am) c rt;
               CallReadAccount h al r acc])%list
        /\ fst (TryReadCache p wrm w) = (p, (Some resp, None))
        /\ resp = CreateStorageTokenResponse (handedOut found w) rt idt acc
        /\ (forall a,
              found = Some a -> fst (isAccessTokenValid a w) = false ->
              StorageTokenResponse.AccessToken resp = None)
        /\ (forall a,
              found = Some a -> fst (isAccessTokenValid a w) = true ->
              StorageTokenResponse.AccessToken resp = Some a)
        /\ (found = None -> StorageTokenResponse.AccessToken resp = None))
  /\ (snd (snd (fst (TryReadCache p wrm w))) <> None
       <-> (exists e,
              requests.resolve wrm (AuthParametersInternal.AuthorityInfo p)
              = inr e)
           \/ (exists metadata,
                 requests.resolve wrm (AuthParametersInternal.AuthorityInfo p)
                 = inl metadata
                 /\ readKeyMissing p metadata)).
Proof.
  split.
  - intros metadata Hres Hkeys h al r c sc.
    pose proof (TryReadCache_reads p wrm w metadata Hres Hkeys) as H.
    cbv zeta in H. fold h al r c sc in H.
    destruct (ReadAccessToken h al r c sc _) as [found s1].
    destruct (ReadIDToken h al r c s1) as [idt s2].
    destruct (ReadAppMetadata al c s2) as [am s3].
    destruct (ReadRefreshToken h al (familyOf am) c s3) as [rt s4].
    destruct (ReadAccount h al r s4) as [acc s5].
    destruct H as (Hfst & Hj & _).
    exists found, idt, am, rt, acc. eexists.
    split; [exact Hj|]. split; [exact Hfst|]. split; [reflexivity|].
    unfold handedOut. simpl.
    repeat split.
    + intros a -> Hv. rewrite Hv. reflexivity.
    + intros a -> Hv. rewrite Hv. reflexivity.
    + intros ->. reflexivity.
  - destruct (requests.resolve wrm (AuthParametersInternal.AuthorityInfo p))
      as [metadata|e] eqn:Hres.
    + destruct (readKeyMissing_dec p metadata) as [Hk|Hk].
      * destruct (TryReadCache_guarded p wrm w metadata Hres Hk) as [-> _].
        simpl. split; [|discriminate]. intros _. right. eauto.
      * pose proof (TryReadCache_reads p wrm w metadata Hres Hk) as H.
        cbv zeta in H.
        destruct (ReadAccessToken _ _ _ _ _ _) as [found s1].
        destruct (ReadIDToken _ _ _ _ _) as [idt s2].
        destruct (ReadAppMetadata _ _ _) as [am s3].
        destruct (ReadRefreshToken _ _ _ _ _) as [rt s4].
        destruct (ReadAccount _ _ _ _) as [acc s5].
        destruct H as (-> & _). simpl.
        split; [congruence|].
        intros [[e He]|[m [Hm Hmiss]]]; [discriminate|].
        inversion Hm; subst. contradiction.
    + rewrite (TryReadCache_unresolved p wrm w e Hres). simpl.
      split; [|discriminate]. intros _. left. eauto.
Qed.

End ReadPath.

Section WritePath.

Import msalbase tokencache cacheManager props.

Context {S : Type} {SM : IStorageManager S} {TM : Methods}.

(** The guard of [CacheTokenResponse] fires exactly when a key is
    missing. *)
Lemma write_guard (p : AuthParametersInternal.t) (tr : TokenResponse.t) :
  is_empty (GetHomeAccountIDFromClientInfo tr)
  || is_empty (AuthorityInfo.Host (AuthParametersInternal.AuthorityInfo p))
  || is_empty (AuthorityInfo.UserRealmURIPrefix
                 (AuthParametersInternal.AuthorityInfo p))
  || is_empty (AuthParametersInternal.ClientID p)
  || is_empty (ConcatenateScopes (TokenResponse.GrantedScopes tr)) = true
  <-> writeKeyMissing p tr.
Proof.
  unfold writeKeyMissing.
  rewrite !orb_true_iff, !is_empty_true. tauto.
Qed.

(** With a key missing, the write path stops at its guard. *)
Lemma CacheTokenResponse_guarded (p : AuthParametersInternal.t)
    (tr : TokenResponse.t) (w : World S) :
  writeKeyMissing p tr ->
  fst (CacheTokenResponse p tr w)
  = (AuthParametersInternal.set_HomeaccountID
       (GetHomeAccountIDFromClientInfo tr) p,
     (None, Some errMissingWriteKey))
  /\ noStorageAccess w (snd (CacheTokenResponse p tr w)).
Proof.
  intros Hkeys. apply write_guard in Hkeys.
  destruct (CacheTokenResponse p tr w) as [res wf] eqn:Hrun.
  unfold CacheTokenResponse in Hrun.
  unfold bind at 1 in Hrun. unfold log at 1 in Hrun. cbv beta iota in Hrun.
  unfold bind at 1 in Hrun. unfold log at 1 in Hrun. cbv beta iota in Hrun.
  cbn [AuthParametersInternal.set_HomeaccountID
       AuthParametersInternal.HomeaccountID
       AuthParametersInternal.AuthorityInfo
       AuthParametersInternal.ClientID] in Hrun.
  rewrite Hkeys in Hrun. unfold ret in Hrun.
  inversion Hrun; subst; clear Hrun.
  unfold noStorageAccess. simpl. auto.
Qed.

(** The evaluator, run after the clock was read once from [w] on. *)
Lemma evaluator_at_second_reading (a : accessTokenCacheItem.t)
    (w1 w2 w : World S) (v : bool) :
  clock w1 = clock w -> clockReads w1 = Datatypes.S (clockReads w) ->
  bufferFits (secondReading w) ->
  isAccessTokenValid a w1 = (v, w2) ->
  (v = true <-> usableAt (secondReading w) a).
Proof.
  intros Hc Hr Hfit Hrun.
  replace v with (fst (isAccessTokenValid a w1)) by (rewrite Hrun; reflexivity).
  replace (secondReading w) with (nextReading w1) in *
    by (unfold secondReading, nextReading; rewrite Hc, Hr; reflexivity).
  apply isAccessTokenValid_true. exact Hfit.
Qed.

(** Start of a proof about a run of the write path: name the run and
    execute it. *)
Ltac exec_write p tr w Hrun :=
  let p' := fresh "p'" in
  let res := fresh "res" in
  let wf := fresh "wf" in
  destruct (CacheTokenResponse p tr w) as [[p' res] wf] eqn:Hrun;
  unfold CacheTokenResponse in Hrun;
  cbn [AuthParametersInternal.set_HomeaccountID
       AuthParametersInternal.HomeaccountID
       AuthParametersInternal.AuthorityInfo
       AuthParametersInternal.ClientID] in Hrun;
  exec Hrun;
  inversion Hrun; subst; clear Hrun;
  cbn [fst snd journal storageManager]; rewrite <- ?app_assoc; cbn [app].

(** Membership of a call in a journal segment that is written out. *)
Ltac in_segment H :=
  simpl in H;
  repeat match type of H with
         | _ \/ _ => destruct H as [H|H]
         | False => contradiction
         | _ = ?c =>
             first [ discriminate H
                   | is_var c; subst c
                   | inversion H; subst; clear H ]
         end.

(** C9.  Whatever the write path adds to the journal, every access token
    it writes is the one built from the response with cached-at = the
    first clock reading, and is usable at the second reading, taken by
    the evaluator: its timestamps parse, its cached-at is not in the
    future and it expires more than 300 seconds later.  A token the
    evaluator rejects is not written; the rejection is no error: when no
    key is missing and the refresh-token write did not fail, the ID token
    and the account are still written, then, if the account write
    succeeded, the app metadata, and if that write succeeds too the call
    returns the account.  For clock readings and
    an expiry within [int64], a written token was cached no later than the
    second reading and was not expired, under the buffer, when built. *)
Theorem persist_skips_unusable_access_token (p : AuthParametersInternal.t)
    (tr : TokenResponse.t) (w : World S) :
  bufferFits (secondReading w) ->
  exists new,
    journal (snd (CacheTokenResponse p tr w)) = (journal w ++ new)%list
    /\ (forall a res,
          In (CallWriteAccessToken a res) new ->
          a = accessTokenOf p tr (nextReading w)
          /\ usableAt (secondReading w) a)
    /\ (~ usableAt (secondReading w) (accessTokenOf p tr (nextReading w)) ->
         (forall a res, ~ In (CallWriteAccessToken a res) new)
         /\ (~ writeKeyMissing p tr ->
              (forall i e, ~ In (CallWriteRefreshToken i (Some e)) new) ->
              exists idt r1 acc r2,
                In (CallWriteIDToken idt r1) new
                /\ In (CallWriteAccount acc r2) new
                /\ (r2 = None ->
                     exists md r3,
                       In (CallWriteAppMetadata md r3) new
                       /\ (r3 = None ->
                           snd (fst (CacheTokenResponse p tr w))
                           = (Some acc, None)))))
    /\ (is_int64 (nextReading w) ->
         is_int64 (time.Unix (TokenResponse.ExpiresOn tr)) ->
         forall a res,
           In (CallWriteAccessToken a res) new ->
           nextReading w <= secondReading w
           /\ time.Unix (TokenResponse.ExpiresOn tr) > nextReading w + 300).
Proof.
  intros Hfit.
  assert (Hmain : exists new,
    journal (snd (CacheTokenResponse p tr w)) = (journal w ++ new)%list
    /\ (forall a res,
          In (CallWriteAccessToken a res) new ->
          a = accessTokenOf p tr (nextReading w)
          /\ usableAt (secondReading w) a)
    /\ (~ usableAt (secondReading w) (accessTokenOf p tr (nextReading w)) ->
         (forall a res, ~ In (CallWriteAccessToken a res) new)
         /\ (~ writeKeyMissing p tr ->
              (forall i e, ~ In (CallWriteRefreshToken i (Some e)) new) ->
              exists idt r1 acc r2,
                In (CallWriteIDToken idt r1) new
                /\ In (CallWriteAccount acc r2) new
                /\ (r2 = None ->
                     exists md r3,
                       In (CallWriteAppMetadata md r3) new
                       /\ (r3 = None ->
                           snd (fst (CacheTokenResponse p tr w))
                           = (Some acc, None)))))).
  { exec_write p tr w Hrun.
    all: first [ exists []; split; [symmetry; apply app_nil_r|]
               | eexists; split; [reflexivity|] ].
    all: try match goal with
             | Ev : isAccessTokenValid _ _ = _ |- _ =>
                 apply evaluator_at_second_reading with (w := w) in Ev;
                 [| reflexivity | reflexivity | assumption]
             end.
    all: split;
      [ intros a res Hin; in_segment Hin;
        (split; [reflexivity | match goal with Ev : _ <-> _ |- _ =>
                                 apply Ev; reflexivity end])
      | intros Hnot ].
    all: try (exfalso; apply Hnot;
              match goal with Ev : _ <-> _ |- _ => apply Ev; reflexivity end).
    all: split; [ intros a res Hin; in_segment Hin | intros Hk HnoRT ].
    all: try (match goal with
              | Hg : _ = true |- _ => apply write_guard in Hg; contradiction
              end).
    all: try (exfalso; eapply HnoRT; simpl; eauto; fail).
    all: do 4 eexists; split; [simpl; eauto 10|]; split; [simpl; eauto 10|].
    all: intros Hr2; try discriminate Hr2.
    all: do 2 eexists; split; [simpl; eauto 10|].
    all: intros Hr3; try discriminate Hr3; reflexivity. }
  destruct Hmain as (new & Hj & HA & HB).
  exists new. split; [exact Hj|]. split; [exact HA|]. split; [exact HB|].
  intros Hi1 Hi2 a res Hin.
  destruct (HA a res Hin) as (-> & c & e & Hc & He & Hle & Hgt).
  unfold parses, accessTokenOf, CreateAccessTokenCacheItem in Hc, He.
  cbn [accessTokenCacheItem.CachedAt
       accessTokenCacheItem.ExpiresOnUnixTimestamp] in Hc, He.
  rewrite ParseInt_FormatInt in Hc, He by assumption.
  inversion Hc; inversion He; subst. lia.
Qed.

(** C3, as amended.  When the aliases are resolved and the home-account
    id, the alias set, the realm, the client id or the requested scope set
    is empty, the read path fails with the missing-cache-key error and
    calls no method of the storage manager; when the resolver fails, the
    read path returns the resolver's error, and calls no method of the
    storage manager either.  When the home-account id derived from the
    response, the environment, the realm, the client id or the
    concatenated granted-scope string is empty, the write path fails with
    the missing-cache-key error and calls no method of the storage
    manager. *)
Theorem missing_key_guard (p : AuthParametersInternal.t)
    (wrm : requests.IWebRequestManager) (tr : TokenResponse.t) (w : World S) :
  (forall metadata,
      requests.resolve wrm (AuthParametersInternal.AuthorityInfo p)
      = inl metadata ->
      readKeyMissing p metadata ->
      snd (fst (TryReadCache p wrm w)) = (None, Some errMissingReadKey)
      /\ noStorageAccess w (snd (TryReadCache p wrm w)))
  /\ (forall e,
        requests.resolve wrm (AuthParametersInternal.AuthorityInfo p) = inr e ->
        snd (fst (TryReadCache p wrm w)) = (None, Some e)
        /\ noStorageAccess w (snd (TryReadCache p wrm w)))
  /\ (writeKeyMissing p tr ->
       snd (fst (CacheTokenResponse p tr w)) = (None, Some errMissingWriteKey)
       /\ noStorageAccess w (snd (CacheTokenResponse p tr w))).
Proof.
  split; [|split].
  - intros metadata Hres Hkeys.
    destruct (TryReadCache_guarded p wrm w metadata Hres Hkeys) as [E Hno].
    rewrite E. split; [reflexivity | exact Hno].
  - intros e Hres. rewrite (TryReadCache_unresolved p wrm w e Hres).
    repeat split.
  - intros Hkeys.
    destruct (CacheTokenResponse_guarded p tr w Hkeys) as [E Hno].
    rewrite E. split; [reflexivity | exact Hno].
Qed.

(** A failed write of a refresh token, an access token, an account or
    the app metadata is the last call of the run, and its error is what
    the write path returns. *)
Lemma write_error_aborts (p : AuthParametersInternal.t)
    (tr : TokenResponse.t) (w : World S) :
  exists new,
    journal (snd (CacheTokenResponse p tr w)) = (journal w ++ new)%list
    /\ (forall c e,
          In c new -> writeError c = Some e -> isIDTokenWrite c = false ->
          (exists before, new = (before ++ [c])%list)
          /\ snd (fst (CacheTokenResponse p tr w)) = (None, Some e)).
Proof.
  exec_write p tr w Hrun.
  all: first [ exists []; split; [symmetry; apply app_nil_r|]
             | eexists; split; [reflexivity|] ].
  all: intros c e' Hin He Hid; in_segment Hin; simpl in He, Hid;
    try discriminate; inversion He; subst; (split; [|reflexivity]).
  all: first [ exists []; reflexivity
             | eexists [_]; reflexivity
             | eexists [_; _]; reflexivity
             | eexists [_; _; _]; reflexivity
             | eexists [_; _; _; _]; reflexivity ].
Qed.

(** A failed write of the ID token is not the last call of the run: the
    account is written next, and the error is not what decides the
    result. *)
Lemma id_token_write_error_dropped (p : AuthParametersInternal.t)
    (tr : TokenResponse.t) (w : World S) :
  exists new,
    journal (snd (CacheTokenResponse p tr w)) = (journal w ++ new)%list
    /\ (forall i e,
          In (CallWriteIDToken i (Some e)) new ->
          exists before acc r rest,
            new = (before
                   ++ CallWriteIDToken i (Some e) :: CallWriteAccount acc r
                      :: rest)%list
            /\ (r = None ->
                 (forall m e', ~ In (CallWriteAppMetadata m (Some e')) new) ->
                 snd (fst (CacheTokenResponse p tr w)) = (Some acc, None))).
Proof.
  exec_write p tr w Hrun.
  all: first [ exists []; split; [symmetry; apply app_nil_r|]
             | eexists; split; [reflexivity|] ].
  all: intros i e' Hin; in_segment Hin.
  all: first [ exists []; do 3 eexists; split; [reflexivity|]
             | eexists [_]; do 3 eexists; split; [reflexivity|]
             | eexists [_; _]; do 3 eexists; split; [reflexivity|] ].
  all: intros Hr HnoApp; try discriminate Hr; try reflexivity.
  all: exfalso; eapply HnoApp; simpl; eauto 10.
Qed.

(** C10.  The write path overwrites the home-account id of the request
    parameters it was given with the one derived from the token response,
    on every run, also on those that fail with the missing-cache-key
    error; every other field keeps its value.  The read path and the
    deletion of a refresh token leave the request parameters as they
    are. *)
Theorem write_path_overwrites_home_account_id
    (p : AuthParametersInternal.t) (tr : TokenResponse.t)
    (wrm : requests.IWebRequestManager) (w : World S) :
  let p' := fst (fst (CacheTokenResponse p tr w)) in
  AuthParametersInternal.HomeaccountID p' = GetHomeAccountIDFromClientInfo tr
  /\ AuthParametersInternal.AuthorityInfo p'
      = AuthParametersInternal.AuthorityInfo p
  /\ AuthParametersInternal.ClientID p' = AuthParametersInternal.ClientID p
  /\ AuthParametersInternal.Username p' = AuthParametersInternal.Username p
  /\ AuthParametersInternal.Password p' = AuthParametersInternal.Password p
  /\ AuthParametersInternal.Scopes p' = AuthParametersInternal.Scopes p
  /\ (writeKeyMissing p tr ->
       snd (fst (CacheTokenResponse p tr w)) = (None, Some errMissingWriteKey)
       /\ AuthParametersInternal.HomeaccountID p'
          = GetHomeAccountIDFromClientInfo tr)
  /\ fst (fst (TryReadCache p wrm w)) = p
  /\ fst (fst (DeleteCachedRefreshToken p w)) = p.
Proof.
  intros p'.
  assert (Hp : p' = AuthParametersInternal.set_HomeaccountID
                      (GetHomeAccountIDFromClientInfo tr) p).
  { subst p'. exec_write p tr w Hrun. all: reflexivity. }
  rewrite Hp. cbn [AuthParametersInternal.set_HomeaccountID
                   AuthParametersInternal.HomeaccountID
                   AuthParametersInternal.AuthorityInfo
                   AuthParametersInternal.ClientID
                   AuthParametersInternal.Username
                   AuthParametersInternal.Password
                   AuthParametersInternal.Scopes].
  repeat (split; [reflexivity|]).
  split; [|split].
  - intros Hkeys.
    destruct (CacheTokenResponse_guarded p tr w Hkeys) as [E _].
    rewrite E. split; reflexivity.
  - apply TryReadCache_params.
  - reflexivity.
Qed.

End WritePath.

Section Deletion.

Import msalbase tokencache cacheManager props.

Context {S : Type} {SM : IStorageManager S}.

(** C6.  Whatever the request parameters and the state, the deletion of
    a refresh token returns the missing-cache-key error and calls no
    method of the storage manager: the home-account id and the environment
    its guard tests are the empty strings written in the function, not
    values taken from the request. *)
Theorem delete_refresh_token_always_guarded
    (p : AuthParametersInternal.t) (w : World S) :
  snd (fst (DeleteCachedRefreshToken p w)) = Some errMissingDeleteKey
  /\ noStorageAccess w (snd (DeleteCachedRefreshToken p w))
  /\ logged (snd (DeleteCachedRefreshToken p w))
     = (logged w
        ++ [(LevelInfo,
             "Deleting refresh token from the cache for homeAccountId '%s' environment '%s' clientID '%s'",
             [ArgString ""; ArgString "";
              ArgString (AuthParametersInternal.ClientID p)]);
            (LevelWarn,
             "Failed to delete refresh token from the cache, one of the primary keys is empty",
             [])])%list.
Proof.
  unfold DeleteCachedRefreshToken, noStorageAccess, bind, ret, log. simpl.
  rewrite <- app_assoc. auto.
Qed.

(** The deletion of an access token has no guard: with any keys, empty
    ones too, it calls [DeleteCredentials] once, with these keys, and
    returns the error of that call. *)
Lemma deleteCachedAccessToken_calls
    (homeAccountID environment realm clientID target : string)
    (w : World S) :
  let res :=
    fst (DeleteCredentials "" homeAccountID environment realm clientID ""
           target [CredentialTypeOauth2AccessToken] (storageManager w)) in
  journal (snd (deleteCachedAccessToken homeAccountID environment realm
                  clientID target w))
  = (journal w
     ++ [CallDeleteCredentials "" homeAccountID environment realm clientID
           "" target [CredentialTypeOauth2AccessToken] res])%list
  /\ fst (deleteCachedAccessToken homeAccountID environment realm clientID
            target w)
     = snd res.
Proof.
  unfold deleteCachedAccessToken, bind, ret, log, call. simpl.
  destruct (DeleteCredentials _ _ _ _ _ _ _ _ _) as [[status [e|]] s]; simpl.
  - auto.
  - destruct (negb _); simpl; auto.
Qed.

(** C7, evaluated on the code.  The deletion of an access token has no
    guard on its keys: with an empty home-account id, environment and
    client id it still calls [DeleteCredentials], once, with these empty
    keys, and returns whatever error that call returns: no
    missing-cache-key error of its own. *)
Theorem delete_access_token_has_no_guard (realm target : string)
    (w : World S) :
  let res :=
    fst (DeleteCredentials "" "" "" realm "" "" target
           [CredentialTypeOauth2AccessToken] (storageManager w)) in
  journal (snd (deleteCachedAccessToken "" "" realm "" target w))
  = (journal w
     ++ [CallDeleteCredentials "" "" "" realm "" "" target
           [CredentialTypeOauth2AccessToken] res])%list
  /\ fst (deleteCachedAccessToken "" "" realm "" target w) = snd res.
Proof.
  apply deleteCachedAccessToken_calls.
Qed.

(** C5, evaluated on the code.  Two deletions of a refresh token in
    succession, with any request parameters and from any state: both
    return the missing-cache-key error, not success, and the storage
    manager is never called. *)
Theorem delete_refresh_token_twice_fails_twice
    (p : AuthParametersInternal.t) (w : World S) :
  let first := DeleteCachedRefreshToken p w in
  let second := DeleteCachedRefreshToken p (snd first) in
  snd (fst first) = Some errMissingDeleteKey
  /\ snd (fst second) = Some errMissingDeleteKey
  /\ snd (fst first) <> None
  /\ snd (fst second) <> None
  /\ noStorageAccess w (snd second).
Proof.
  unfold DeleteCachedRefreshToken, noStorageAccess, bind, ret, log. simpl.
  repeat split; discriminate.
Qed.

End Deletion.

(** ** The properties at work on concrete runs *)

Section Runs.

Import msalbase tokencache cacheManager props memory runs.

Lemma start_bufferFits : bufferFits (nextReading start).
Proof. unfold bufferFits, int64_min, int64_max. vm_compute. split; discriminate. Qed.

(** Boundary of the buffer: cached now, expiring in 301 seconds is valid,
    in 300 seconds is not. *)
Lemma validity_evaluator_iff_witness :
  bufferFits (nextReading start)
  /\ usableAt (nextReading start) freshToken
  /\ fst (isAccessTokenValid freshToken start) = true
  /\ fst (isAccessTokenValid edgeToken start) = false.
Proof.
  pose proof start_bufferFits as Hfit.
  assert (Hu : usableAt (nextReading start) freshToken).
  { exists 1700000000, 1700000301.
    repeat split; vm_compute; congruence. }
  destruct (validity_evaluator_iff freshToken start Hfit) as (Hiff & _).
  destruct (validity_evaluator_iff edgeToken start Hfit) as (_ & Hedge & _).
  split; [exact Hfit|]. split; [exact Hu|]. split.
  - apply Hiff. exact Hu.
  - apply (Hedge 1700000000); [reflexivity | vm_compute; congruence | reflexivity].
Defined.
Lemma resolved (p : AuthParametersInternal.t) :
  requests.resolve resolver (AuthParametersInternal.AuthorityInfo p)
  = inl metadata.
Proof. reflexivity. Qed.

(** The guards at work: request parameters without home-account id and
    client id, with working and with failing alias resolution. *)
Lemma missing_key_guard_witness :
  let p := paramsOf "" "" in
  readKeyMissing p metadata
  /\ writeKeyMissing p responseB
  /\ (snd (fst (TryReadCache p resolver start)) = (None, Some errMissingReadKey)
      /\ noStorageAccess start (snd (TryReadCache p resolver start)))
  /\ (snd (fst (TryReadCache p failingResolver start))
      = (None, Some (errors_New "instance discovery failed"))
      /\ noStorageAccess start (snd (TryReadCache p failingResolver start)))
  /\ (snd (fst (CacheTokenResponse p responseB start))
      = (None, Some errMissingWriteKey)
      /\ noStorageAccess start (snd (CacheTokenResponse p responseB start))).
Proof.
  intros p.
  assert (Hr : readKeyMissing p metadata) by (left; reflexivity).
  assert (Hw : writeKeyMissing p responseB)
    by (right; right; right; left; reflexivity).
  destruct (missing_key_guard p resolver responseB start) as (Hread & _ & Hwrite).
  destruct (missing_key_guard p failingResolver responseB start)
    as (_ & Hfail & _).
  split; [exact Hr|]. split; [exact Hw|].
  split; [exact (Hread metadata (resolved p) Hr)|].
  split; [exact (Hfail _ eq_refl)|].
  exact (Hwrite Hw).
Defined.

(** An authority that resolves to no alias at all: the read path stops at
    its guard although every key of the request is there. *)
Example empty_alias_set_is_a_missing_key :
  snd (fst (TryReadCache (paramsOf "A" "uid.utid") noAliasResolver afterB))
  = (None, Some errMissingReadKey)
  /\ journal (snd (TryReadCache (paramsOf "A" "uid.utid") noAliasResolver afterB))
     = journal afterB.
Proof. vm_compute. split; reflexivity. Qed.

(** C3 as first stated does not hold.  With an empty home-account id in
    the request and a resolver that fails, the read path returns the
    resolver's error, not the missing-cache-key error; and the write path
    succeeds on request parameters whose home-account id is empty when the
    response carries client info, since it takes the id from there. *)
Lemma missing_key_guard_counterexample :
  AuthParametersInternal.HomeaccountID (paramsOf "A" "") = ""
  /\ snd (fst (TryReadCache (paramsOf "A" "") failingResolver start))
     = (None, Some (errors_New "instance discovery failed"))
  /\ snd (fst (TryReadCache (paramsOf "A" "") failingResolver start))
     <> (None, Some errMissingReadKey)
  /\ ~ (forall (p : AuthParametersInternal.t)
          (wrm : requests.IWebRequestManager) (w : World Store),
          AuthParametersInternal.HomeaccountID p = "" ->
          snd (fst (TryReadCache p wrm w)) = (None, Some errMissingReadKey))
  /\ (exists acc,
        snd (fst (CacheTokenResponse (paramsOf "A" "") responseB start))
        = (Some acc, None)).
Proof.
  split; [reflexivity|]. split; [reflexivity|].
  split; [vm_compute; discriminate|]. split.
  - intros H.
    specialize (H (paramsOf "A" "") failingResolver start eq_refl).
    vm_compute in H. discriminate H.
  - vm_compute. eexists. reflexivity.
Qed.

(** Family sharing at work: client ["B"] stored a refresh token of family
    ["F"]; client ["A"], whose app metadata maps it to ["F"], resolves
    and gets that token. *)
Lemma refresh_token_keyed_by_family_witness :
  let p := paramsOf "A" "uid.utid" in
  ~ readKeyMissing p metadata
  /\ exists am rt resp,
       In (CallReadAppMetadata contosoAliases "A" am)
         (journal (snd (TryReadCache p resolver afterA)))
       /\ familyOf am = "F"
       /\ In (CallReadRefreshToken "uid.utid" contosoAliases "F" "A" rt)
            (journal (snd (TryReadCache p resolver afterA)))
       /\ rt = Some (refreshTokenCacheItem.mk "uid.utid" "login.contoso.com"
                       "B" "rt-secret" "F")
       /\ fst (TryReadCache p resolver afterA) = (p, (Some resp, None))
       /\ StorageTokenResponse.RefreshToken resp = rt.
Proof.
  intros p.
  assert (Hk : ~ readKeyMissing p metadata).
  { intros [H|[H|[H|[H|H]]]]; discriminate H. }
  split; [exact Hk|].
  destruct (refresh_token_keyed_by_family p resolver afterA metadata
              (resolved p) Hk)
    as (found & idt & am & rt & acc & s2 & s3 & s4 & resp
        & Hj & _ & _ & Hfst & Hrt).
  exists am, rt, resp.
  rewrite Hj. vm_compute in Hj.
  apply (f_equal (fun l => skipn 8 l)) in Hj. cbn [skipn] in Hj.
  inversion Hj as [[Hfound Hidt Ham Hfam Hrt']]; clear Hj.
  split; [apply in_or_app; right; do 2 right; left; reflexivity|].
  split; [reflexivity|].
  split; [apply in_or_app; right; do 3 right; left; reflexivity|].
  split; [reflexivity|].
  split; [exact Hfst | rewrite Hrt; symmetry; assumption].
Defined.

(** An expired token in the store: found by the storage manager, rejected
    by the evaluator, absent from the response; no error. *)
Lemma read_path_absent_is_not_an_error_witness :
  let p := paramsOf "B" "uid.utid" in
  ~ readKeyMissing p metadata
  /\ exists a resp,
       In (CallReadAccessToken "uid.utid" contosoAliases "tenant" "B"
             ["user.read"] (Some a))
         (journal (snd (TryReadCache p resolver later)))
       /\ fst (isAccessTokenValid a later) = false
       /\ fst (TryReadCache p resolver later) = (p, (Some resp, None))
       /\ StorageTokenResponse.AccessToken resp = None.
Proof.
  intros p.
  assert (Hk : ~ readKeyMissing p metadata).
  { intros [H|[H|[H|[H|H]]]]; discriminate H. }
  split; [exact Hk|].
  destruct (read_path_absent_is_not_an_error p resolver later) as (Hok & _).
  destruct (Hok metadata (resolved p) Hk)
    as (found & idt & am & rt & acc & resp & Hj & Hfst & _ & Hrej & _).
  rewrite Hj. vm_compute in Hj.
  inversion Hj as [[Hfound Hidt Ham Hfam Hrt Hacc]]; clear Hj.
  eexists; exists resp.
  split; [apply in_or_app; right; left; reflexivity|].
  split; [vm_compute; reflexivity|].
  split; [exact Hfst|].
  eapply Hrej; [symmetry; exact Hfound | vm_compute; reflexivity].
Defined.

(** A response whose access token has expired: nothing is written for
    it, the other entities are, and the call returns the account. *)
Lemma persist_skips_unusable_access_token_witness :
  let p := paramsOf "A" "" in
  bufferFits (secondReading start)
  /\ ~ usableAt (secondReading start)
         (accessTokenOf p expiredResponse (nextReading start))
  /\ (forall a res,
        ~ In (CallWriteAccessToken a res)
            (journal (snd (CacheTokenResponse p expiredResponse start))))
  /\ exists acc,
       snd (fst (CacheTokenResponse p expiredResponse start)) = (Some acc, None).
Proof.
  intros p.
  assert (Hfit : bufferFits (secondReading start)).
  { unfold bufferFits, int64_min, int64_max. vm_compute. split; discriminate. }
  assert (Hnot : ~ usableAt (secondReading start)
                   (accessTokenOf p expiredResponse (nextReading start))).
  { intros (c & e & _ & He & _ & Hgt). vm_compute in He.
    inversion He; subst. vm_compute in Hgt. discriminate Hgt. }
  assert (Hk : ~ writeKeyMissing p expiredResponse).
  { intros [H|[H|[H|[H|H]]]]; discriminate H. }
  destruct (persist_skips_unusable_access_token p expiredResponse start Hfit)
    as (new & Hj & _ & Hskip & _).
  destruct (Hskip Hnot) as (Hno & Hcont).
  rewrite Hj. vm_compute in Hj. subst new.
  split; [exact Hfit|]. split; [exact Hnot|]. split; [exact Hno|].
  destruct Hcont as (idt & r1 & acc & r2 & _ & Hacc & Hres).
  - exact Hk.
  - intros i e Hin. simpl in Hin.
    repeat (destruct Hin as [Hin|Hin]; [discriminate Hin|]). exact Hin.
  - exists acc.
    assert (Hr2 : r2 = None).
    { simpl in Hacc.
      repeat (destruct Hacc as [Hacc|Hacc];
              [first [discriminate Hacc | inversion Hacc; reflexivity]|]).
      contradiction. }
    destruct (Hres Hr2) as (md & r3 & Hmd & Hfin).
    apply Hfin. simpl in Hmd.
    repeat (destruct Hmd as [Hmd|Hmd];
            [first [discriminate Hmd | inversion Hmd; reflexivity]|]).
    contradiction.
Defined.

(** Stale request parameters without a client id: the write fails at its
    guard, and the home-account id has been replaced all the same. *)
Lemma write_path_overwrites_home_account_id_witness :
  let p := paramsOf "" "stale" in
  writeKeyMissing p responseB
  /\ AuthParametersInternal.HomeaccountID p = "stale"
  /\ AuthParametersInternal.HomeaccountID
       (fst (fst (CacheTokenResponse p responseB start))) = "uid.utid"
  /\ snd (fst (CacheTokenResponse p responseB start))
     = (None, Some errMissingWriteKey).
Proof.
  intros p.
  assert (Hw : writeKeyMissing p responseB)
    by (right; right; right; left; reflexivity).
  destruct (write_path_overwrites_home_account_id p responseB resolver start)
    as (Hh & _ & _ & _ & _ & _ & Hmiss & _).
  split; [exact Hw|]. split; [reflexivity|].
  split; [exact Hh | exact (proj1 (Hmiss Hw))].
Defined.

(** C2, evaluated on the code.  A storage manager whose ID-token writes
    fail: the write path does not stop at the failed write and does not
    return its error; it goes on to write the account and the app
    metadata and returns the account.  (For the four other writes the
    error stops the run and is returned: [write_error_aborts].) *)
Theorem id_token_write_failure_is_swallowed :
  let run := CacheTokenResponse (paramsOf "A" "") responseB faulty in
  exists rt a idt acc md,
    journal (snd run)
    = [CallWriteRefreshToken rt None; CallWriteAccessToken a None;
       CallWriteIDToken idt (Some (errors_New "disk full"));
       CallWriteAccount acc None; CallWriteAppMetadata md None]
    /\ snd (fst run) = (Some acc, None)
    /\ idTokens (storageManager (snd run)) = []
    /\ accounts (storageManager (snd run)) = [acc].
Proof.
  intros run. subst run. vm_compute. do 5 eexists. repeat split.
Qed.

(** The deletions on the in-memory storage: the refresh token stored by
    client ["B"] survives two deletions, and an access-token deletion
    with empty keys reaches the storage manager. *)
Example delete_refresh_token_runs :
  let p := paramsOf "B" "uid.utid" in
  let first := DeleteCachedRefreshToken p afterB in
  let second := DeleteCachedRefreshToken p (snd first) in
  snd (fst first) = Some errMissingDeleteKey
  /\ snd (fst second) = Some errMissingDeleteKey
  /\ journal (snd second) = journal afterB
  /\ refreshTokens (storageManager (snd second))
     = [refreshTokenCacheItem.mk "uid.utid" "login.contoso.com" "B"
          "rt-secret" "F"].
Proof.
  intros p first second. vm_compute. repeat split.
Qed.

Example delete_access_token_empty_keys_run :
  fst (deleteCachedAccessToken "" "" "" "" "" start) = None
  /\ journal (snd (deleteCachedAccessToken "" "" "" "" "" start))
     = [CallDeleteCredentials "" "" "" "" "" "" ""
          [CredentialTypeOauth2AccessToken]
          (OperationStatus.mk OperationStatusTypeFailure, None)].
Proof.
  vm_compute. split; reflexivity.
Qed.

(** Round trip: a valid access token written by the write path is read
    back by the read path; an expired one is not persisted. *)
Example write_then_read_access_token :
  exists resp a,
    snd (fst (TryReadCache (paramsOf "B" "uid.utid") resolver afterB))
    = (Some resp, None)
    /\ StorageTokenResponse.AccessToken resp = Some a
    /\ accessTokenCacheItem.Secret a = "at-secret".
Proof. vm_compute. do 2 eexists. repeat split. Qed.

Example expired_token_not_persisted :
  let w := snd (CacheTokenResponse (paramsOf "A" "") expiredResponse start) in
  accessTokens (storageManager w) = []
  /\ exists resp,
       snd (fst (TryReadCache (paramsOf "A" "uid.utid") resolver w))
       = (Some resp, None)
       /\ StorageTokenResponse.AccessToken resp = None.
Proof. intros w. subst w. vm_compute. split; [reflexivity|]. eexists. split; reflexivity. Qed.

End Runs.

(** * Further properties *)

(** ** The validity evaluator *)

Section EvaluatorMore.

Import tokencache cacheManager props.

Context {S : Type}.

(** X1.  The evaluator looks at the cached-at and expires-on fields only:
    two items that agree on these two fields get the same run, whatever
    their secrets, keys or extended expiry. *)
Theorem evaluator_reads_two_fields (a b : accessTokenCacheItem.t)
    (w : World S) :
  accessTokenCacheItem.CachedAt a = accessTokenCacheItem.CachedAt b ->
  accessTokenCacheItem.ExpiresOnUnixTimestamp a
  = accessTokenCacheItem.ExpiresOnUnixTimestamp b ->
  isAccessTokenValid a w = isAccessTokenValid b w.
Proof.
  intros Hc He. unfold isAccessTokenValid. rewrite Hc, He. reflexivity.
Qed.

(** X2.  Validity does not come back: a token that was cached by the
    earlier of two clock readings and is valid at the later one is valid at
    the earlier one; one that is rejected at the earlier reading is
    rejected at the later one. *)
Theorem evaluator_expiry_is_final (a : accessTokenCacheItem.t)
    (w w' : World S) (c : Z) :
  bufferFits (nextReading w) -> bufferFits (nextReading w') ->
  parses (accessTokenCacheItem.CachedAt a) c ->
  c <= nextReading w <= nextReading w' ->
  (fst (isAccessTokenValid a w') = true -> fst (isAccessTokenValid a w) = true)
  /\ (fst (isAccessTokenValid a w) = false ->
      fst (isAccessTokenValid a w') = false).
Proof.
  intros Hfit Hfit' Hc Hle.
  assert (Hback : fst (isAccessTokenValid a w') = true ->
                  fst (isAccessTokenValid a w) = true).
  { intros Hv. apply (isAccessTokenValid_true a w' Hfit') in Hv.
    apply (isAccessTokenValid_true a w Hfit).
    destruct Hv as (c' & e & Hc' & He & _ & Hgt).
    exists c, e. repeat split; auto; lia. }
  split; [exact Hback|].
  intros Hv. destruct (fst (isAccessTokenValid a w')); [|reflexivity].
  rewrite Hback in Hv by reflexivity. discriminate Hv.
Qed.

(** X3.  A run of the evaluator calls no method of the storage manager and
    reads the clock at most once.  It writes one record to the log, at
    level Info, exactly when it answers false, and none when it answers
    true. *)
Theorem evaluator_effects (a : accessTokenCacheItem.t) (w : World S) :
  let v := fst (isAccessTokenValid a w) in
  let w' := snd (isAccessTokenValid a w) in
  noStorageAccess w w'
  /\ clock w' = clock w
  /\ (clockReads w' = clockReads w \/ clockReads w' = Datatypes.S (clockReads w))
  /\ (v = true -> logged w' = logged w)
  /\ (v = false ->
      exists message, logged w' = (logged w ++ [(LevelInfo, message, [])])%list).
Proof.
  unfold noStorageAccess, isAccessTokenValid, bind, ret, log, time_Now_Unix.
  destruct (strconv.ParseInt (accessTokenCacheItem.CachedAt a)) as [c [e|]];
    simpl.
  { repeat split; auto; try discriminate. eauto. }
  destruct (c >? _); simpl.
  { repeat split; auto; try discriminate. eauto. }
  destruct (strconv.ParseInt _) as [x [e|]]; simpl.
  { repeat split; auto; try discriminate. eauto. }
  destruct (x <=? _); simpl; repeat split; auto; try discriminate. eauto.
Qed.

(** X4.  On an item whose two timestamps were written by [FormatInt] from
    the [int64] values [c] and [e], parsing cannot fail and the evaluator
    is plain arithmetic: valid if and only if c <= now and
    e > now + 300. *)
Theorem evaluator_on_formatted_timestamps (a : accessTokenCacheItem.t)
    (c e : Z) (w : World S) :
  is_int64 c -> is_int64 e ->
  accessTokenCacheItem.CachedAt a = strconv.FormatInt c ->
  accessTokenCacheItem.ExpiresOnUnixTimestamp a = strconv.FormatInt e ->
  bufferFits (nextReading w) ->
  (fst (isAccessTokenValid a w) = true
   <-> c <= nextReading w /\ e > nextReading w + 300).
Proof.
  intros Hc He Ea Eb Hfit.
  rewrite (isAccessTokenValid_true a w Hfit).
  unfold usableAt, parses. rewrite Ea, Eb.
  rewrite !ParseInt_FormatInt by assumption.
  split.
  - intros (c' & e' & H1 & H2 & Hle & Hgt).
    inversion H1; inversion H2; subst. auto.
  - intros [Hle Hgt]. exists c, e. auto.
Qed.

End EvaluatorMore.

(** ** The read path *)

Section ReadPathMore.

Import msalbase tokencache cacheManager props shape.

Context {S : Type} {SM : IStorageManager S}.

(** X5.  A run of the read path is all or nothing: either it returns an
    error and no response, and has called no method of the storage
    manager, or it returns a response and no error, and has made five
    calls, all of them reads. *)
Theorem read_path_all_or_nothing (p : AuthParametersInternal.t)
    (wrm : requests.IWebRequestManager) (w : World S) :
  (exists e,
      snd (fst (TryReadCache p wrm w)) = (None, Some e)
      /\ noStorageAccess w (snd (TryReadCache p wrm w)))
  \/ (exists resp new,
        snd (fst (TryReadCache p wrm w)) = (Some resp, None)
        /\ journal (snd (TryReadCache p wrm w)) = (journal w ++ new)%list
        /\ length new = 5%nat
        /\ forallb isRead new = true).
Proof.
  destruct (requests.resolve wrm (AuthParametersInternal.AuthorityInfo p))
    as [metadata|e] eqn:Hres.
  - destruct (readKeyMissing_dec p metadata) as [Hk|Hk].
    + left. exists errMissingReadKey.
      destruct (TryReadCache_guarded p wrm w metadata Hres Hk) as [E Hno].
      rewrite E. split; [reflexivity | exact Hno].
    + right.
      pose proof (TryReadCache_reads p wrm w metadata Hres Hk) as H.
      cbv zeta in H.
      destruct (ReadAccessToken _ _ _ _ _ _) as [found s1].
      destruct (ReadIDToken _ _ _ _ _) as [idt s2].
      destruct (ReadAppMetadata _ _ _) as [am s3].
      destruct (ReadRefreshToken _ _ _ _ _) as [rt s4].
      destruct (ReadAccount _ _ _ _) as [acc s5].
      destruct H as (E & Hj & _).
      do 2 eexists. rewrite E.
      split; [reflexivity|]. split; [exact Hj|]. split; reflexivity.
  - left. exists e. rewrite (TryReadCache_unresolved p wrm w e Hres).
    repeat split.
Qed.

(** X6.  Over a storage manager whose read methods leave its state as it
    is, the read path leaves the state of the storage manager as it is. *)
Theorem read_path_keeps_storage (p : AuthParametersInternal.t)
    (wrm : requests.IWebRequestManager) (w : World S) :
  readsKeepState SM ->
  storageManager (snd (TryReadCache p wrm w)) = storageManager w.
Proof.
  intros (Hat & Hrt & Hid & Hacc & Ham).
  destruct (requests.resolve wrm (AuthParametersInternal.AuthorityInfo p))
    as [metadata|e] eqn:Hres.
  - destruct (readKeyMissing_dec p metadata) as [Hk|Hk].
    + apply (TryReadCache_guarded p wrm w metadata Hres Hk).
    + pose proof (TryReadCache_reads p wrm w metadata Hres Hk) as H.
      cbv zeta in H.
      destruct (ReadAccessToken _ _ _ _ _ _) as [found s1] eqn:E1.
      destruct (ReadIDToken _ _ _ _ _) as [idt s2] eqn:E2.
      destruct (ReadAppMetadata _ _ _) as [am s3] eqn:E3.
      destruct (ReadRefreshToken _ _ _ _ _) as [rt s4] eqn:E4.
      destruct (ReadAccount _ _ _ _) as [acc s5] eqn:E5.
      destruct H as (_ & _ & ->).
      apply (f_equal snd) in E1, E2, E3, E4, E5.
      rewrite Hat in E1. rewrite Hid in E2. rewrite Ham in E3.
      rewrite Hrt in E4. rewrite Hacc in E5. simpl in *. congruence.
  - rewrite (TryReadCache_unresolved p wrm w e Hres). reflexivity.
Qed.

End ReadPathMore.

(** ** The write path *)

(** Name a run of the write path, execute it and write its journal as the
    journal before, followed by the calls of the run. *)
Ltac run_write p tr w Hrun :=
  let p' := fresh "p'" in
  let res := fresh "res" in
  let wf := fresh "wf" in
  destruct (cacheManager.CacheTokenResponse p tr w) as [[p' res] wf] eqn:Hrun;
  unfold cacheManager.CacheTokenResponse in Hrun;
  cbn [msalbase.AuthParametersInternal.set_HomeaccountID
       msalbase.AuthParametersInternal.HomeaccountID
       msalbase.AuthParametersInternal.AuthorityInfo
       msalbase.AuthParametersInternal.ClientID] in Hrun;
  exec Hrun;
  inversion Hrun; subst; clear Hrun;
  cbn [fst snd tokencache.journal tokencache.storageManager];
  rewrite <- ?app_assoc; cbn [app].

Ltac name_calls :=
  first [ exists []; split; [symmetry; apply app_nil_r|]
        | eexists; split; [reflexivity|] ].

Ltac in_calls H :=
  simpl in H;
  repeat match type of H with
         | _ \/ _ => destruct H as [H|H]
         | False => contradiction
         | _ = ?c =>
             first [ discriminate H
                   | is_var c; subst c
                   | inversion H; subst; clear H ]
         end.

Section WritePathMore.

Import msalbase tokencache cacheManager props shape.

Context {S : Type} {SM : IStorageManager S} {TM : Methods}.

(** X7.  The write path calls write methods only, each at most once and
    in one order: refresh token, access token, ID token, account, app
    metadata. *)
Theorem write_path_order (p : AuthParametersInternal.t) (tr : TokenResponse.t)
    (w : World S) :
  exists new,
    journal (snd (CacheTokenResponse p tr w)) = (journal w ++ new)%list
    /\ ascending 0 (map writeRank new) = true.
Proof.
  run_write p tr w Hrun. all: name_calls. all: reflexivity.
Qed.

(** X8.  The write path returns an account or an error, never both and
    never neither.  When it returns an account, no key was missing, the
    account is the one built from the response and the request, and the
    run ended with the writes of the ID token, of that account and of the
    app metadata, the last two without error. *)
Theorem write_path_result (p : AuthParametersInternal.t) (tr : TokenResponse.t)
    (w : World S) :
  ((exists acc, snd (fst (CacheTokenResponse p tr w)) = (Some acc, None))
   \/ (exists e, snd (fst (CacheTokenResponse p tr w)) = (None, Some e)))
  /\ (forall acc,
        snd (fst (CacheTokenResponse p tr w)) = (Some acc, None) ->
        acc = accountOf p tr
        /\ ~ writeKeyMissing p tr
        /\ exists before r,
             journal (snd (CacheTokenResponse p tr w))
             = (journal w ++ before
                ++ [CallWriteIDToken (idTokenOf p tr) r;
                    CallWriteAccount (accountOf p tr) None;
                    CallWriteAppMetadata (appMetadataOf p tr) None])%list).
Proof.
  run_write p tr w Hrun.
  all: split; [eauto|].
  all: intros acc Hacc; try discriminate Hacc.
  all: inversion Hacc; subst; clear Hacc.
  all: split; [reflexivity|].
  all: split;
    [ intros Hk; apply write_guard in Hk; congruence |].
  all: first [ exists []; eexists; reflexivity
             | eexists [_]; eexists; reflexivity
             | eexists [_; _]; eexists; reflexivity ].
Qed.

(** X9.  An error returned by the write path is either the
    missing-cache-key error of its guard, with a key missing and no call
    made, or the error returned by the last call made, a write of a
    refresh token, an access token, an account or the app metadata. *)
Theorem write_path_error_origin (p : AuthParametersInternal.t)
    (tr : TokenResponse.t) (w : World S) (e : error) :
  snd (fst (CacheTokenResponse p tr w)) = (None, Some e) ->
  (e = errMissingWriteKey /\ writeKeyMissing p tr
   /\ noStorageAccess w (snd (CacheTokenResponse p tr w)))
  \/ (exists before c,
        journal (snd (CacheTokenResponse p tr w))
        = (journal w ++ before ++ [c])%list
        /\ writeError c = Some e /\ isIDTokenWrite c = false).
Proof.
  run_write p tr w Hrun.
  all: intros He; try discriminate He; inversion He; subst; clear He.
  1: { left. split; [reflexivity|]. split; [|split; reflexivity].
       apply write_guard. assumption. }
  all: right.
  all: first [ exists []; eexists; split; [reflexivity|]
             | eexists [_]; eexists; split; [reflexivity|]
             | eexists [_; _]; eexists; split; [reflexivity|]
             | eexists [_; _; _]; eexists; split; [reflexivity|]
             | eexists [_; _; _; _]; eexists; split; [reflexivity|] ].
  all: split; reflexivity.
Qed.


(** X11.  A usable access token is persisted: when no key is missing, the
    response carries an access token, the item built from it is usable at
    the second clock reading and no refresh-token write failed, the write
    path calls [WriteAccessToken] with that item. *)
Theorem write_path_persists_usable_token (p : AuthParametersInternal.t)
    (tr : TokenResponse.t) (w : World S) :
  bufferFits (secondReading w) ->
  ~ writeKeyMissing p tr ->
  HasAccessToken tr = true ->
  usableAt (secondReading w) (accessTokenOf p tr (nextReading w)) ->
  exists new,
    journal (snd (CacheTokenResponse p tr w)) = (journal w ++ new)%list
    /\ ((forall i e, ~ In (CallWriteRefreshToken i (Some e)) new) ->
        exists res,
          In (CallWriteAccessToken (accessTokenOf p tr (nextReading w)) res)
            new).
Proof.
  intros Hfit Hk Hat Hu.
  run_write p tr w Hrun. all: name_calls.
  all: try match goal with
           | Ev : isAccessTokenValid _ _ = _ |- _ =>
               apply evaluator_at_second_reading with (w := w) in Ev;
               [| reflexivity | reflexivity | assumption]
           end.
  all: intros HnoRT.
  all: try (match goal with
            | Hg : _ = true |- _ => apply write_guard in Hg; contradiction
            end).
  all: try congruence.
  all: try (exfalso; eapply HnoRT; simpl; eauto; fail).
  all: try (match goal with
            | Ev : false = true <-> _ |- _ =>
                apply Ev in Hu; discriminate Hu
            end).
  all: eexists; simpl; eauto 6.
Qed.

End WritePathMore.

(** ** Write, then read *)

Section WriteThenRead.

Import msalbase tokencache cacheManager props shape.

Context {S : Type} {SM : IStorageManager S} {TM : Methods}.

(** The request parameters as the write path leaves them. *)
Lemma CacheTokenResponse_params (p : AuthParametersInternal.t)
    (tr : TokenResponse.t) (w : World S) :
  fst (fst (CacheTokenResponse p tr w))
  = AuthParametersInternal.set_HomeaccountID
      (GetHomeAccountIDFromClientInfo tr) p.
Proof.
  run_write p tr w Hrun. all: reflexivity.
Qed.

(** X12.  The read path looks where the write path stored.  Take the
    request parameters as a run of the write path that got past its guard
    left them, with the granted scopes as requested scopes, and an alias
    set that contains the host of the authority.  Then the read path gets
    past its guard too, and the keys of its five reads are those of the
    items the write path builds: same home-account id, realm, client id
    and serialized scopes, and the items' environment among the aliases. *)
Theorem write_then_read_keys (p : AuthParametersInternal.t)
    (tr : TokenResponse.t) (w w2 : World S)
    (wrm : requests.IWebRequestManager)
    (metadata : requests.InstanceDiscoveryMetadata.t) (cachedAt : Z) :
  let p' := fst (fst (CacheTokenResponse p tr w)) in
  ~ writeKeyMissing p tr ->
  requests.resolve wrm (AuthParametersInternal.AuthorityInfo p') = inl metadata ->
  In (AuthorityInfo.Host (AuthParametersInternal.AuthorityInfo p))
    (requests.InstanceDiscoveryMetadata.Aliases metadata) ->
  AuthParametersInternal.Scopes p = TokenResponse.GrantedScopes tr ->
  exists h al r c sc found idt am rt acc,
    journal (snd (TryReadCache p' wrm w2))
    = (journal w2
       ++ [CallReadAccessToken h al r c sc found; CallReadIDToken h al r c idt;
           CallReadAppMetadata al c am;
           CallReadRefreshToken h al (familyOf am) c rt;
           CallReadAccount h al r acc])%list
    /\ (let a := accessTokenOf p tr cachedAt in
        h = accessTokenCacheItem.HomeAccountID a
        /\ In (accessTokenCacheItem.Environment a) al
        /\ r = accessTokenCacheItem.Realm a
        /\ c = accessTokenCacheItem.ClientID a
        /\ ConcatenateScopes sc = accessTokenCacheItem.Scopes a)
    /\ (let i := idTokenOf p tr in
        h = idTokenCacheItem.HomeAccountID i
        /\ In (idTokenCacheItem.Environment i) al
        /\ r = idTokenCacheItem.Realm i
        /\ c = idTokenCacheItem.ClientID i)
    /\ (let m := appMetadataOf p tr in
        In (appMetadata.Environment m) al /\ c = appMetadata.ClientID m)
    /\ (let t := refreshTokenOf p tr in
        h = refreshTokenCacheItem.HomeAccountID t
        /\ In (refreshTokenCacheItem.Environment t) al
        /\ c = refreshTokenCacheItem.ClientID t)
    /\ (let u := accountOf p tr in
        h = Account.HomeAccountID u
        /\ In (Account.Environment u) al
        /\ r = Account.Realm u).
Proof.
  intros p' Hk Hres Hin Hsc. subst p'.
  rewrite CacheTokenResponse_params in *.
  set (q := AuthParametersInternal.set_HomeaccountID _ p) in *.
  assert (Hq : ~ readKeyMissing q metadata).
  { unfold readKeyMissing, writeKeyMissing in *. subst q. simpl.
    intros [H|[H|[H|[H|H]]]].
    - apply Hk. auto.
    - rewrite H in Hin. contradiction.
    - apply Hk. auto.
    - apply Hk. auto 6.
    - apply Hk. rewrite <- Hsc, H. do 4 right. reflexivity. }
  pose proof (TryReadCache_reads q wrm w2 metadata Hres Hq) as H.
  cbv zeta in H.
  destruct (ReadAccessToken _ _ _ _ _ _) as [found s1].
  destruct (ReadIDToken _ _ _ _ _) as [idt s2].
  destruct (ReadAppMetadata _ _ _) as [am s3].
  destruct (ReadRefreshToken _ _ _ _ _) as [rt s4].
  destruct (ReadAccount _ _ _ _) as [acc s5].
  destruct H as (_ & Hj & _).
  do 5 eexists. exists found, idt, am, rt, acc.
  split; [exact Hj|].
  subst q. simpl. rewrite Hsc. repeat split; auto.
Qed.

End WriteThenRead.

(** ** Deletion of an access token *)

Section DeletionMore.

Import msalbase tokencache cacheManager props.

Context {S : Type} {SM : IStorageManager S}.

(** X13.  The deletion of an access token makes one call,
    [DeleteCredentials] restricted to access tokens, and returns the
    error of that call as it is.  A failure status that comes without an
    error is not turned into an error: the result is nil and one warning
    is logged; with a success status, or with an error, no warning is
    logged. *)
Theorem delete_access_token_outcome
    (homeAccountID environment realm clientID target : string) (w : World S) :
  let out :=
    DeleteCredentials "" homeAccountID environment realm clientID "" target
      [CredentialTypeOauth2AccessToken] (storageManager w) in
  let status := OperationStatus.StatusType (fst (fst out)) in
  let err := snd (fst out) in
  let run :=
    deleteCachedAccessToken homeAccountID environment realm clientID target w in
  fst run = err
  /\ storageManager (snd run) = snd out
  /\ journal (snd run)
     = (journal w
        ++ [CallDeleteCredentials "" homeAccountID environment realm clientID
              "" target [CredentialTypeOauth2AccessToken] (fst out)])%list
  /\ exists warnings,
       logged (snd run)
       = (logged w
          ++ (LevelInfo,
              "Deleting an access token from the cache for homeAccountId '%s' environment '%s' realm '%s' clientId '%s' target '%s'",
              [ArgString homeAccountID; ArgString environment;
               ArgString realm; ArgString clientID; ArgString target])
             :: warnings)%list
       /\ (err = None -> status = OperationStatusTypeFailure ->
           warnings
           = [(LevelWarn, "Failure deleting an access token from the cache",
               [])])
       /\ (err <> None \/ status = OperationStatusTypeSuccess ->
           warnings = []).
Proof.
  unfold deleteCachedAccessToken, bind, ret, log, call. simpl.
  destruct (DeleteCredentials _ _ _ _ _ _ _ _ _) as [[[status] [e|]] s]; simpl.
  - repeat split. exists []. repeat split; auto. intros H; discriminate H.
  - destruct status; simpl; repeat split.
    + exists []. repeat split; auto. intros _ H; discriminate H.
    + eexists. rewrite <- app_assoc. simpl. repeat split; auto.
      intros [H|H]; [congruence | discriminate H].
Qed.

End DeletionMore.

(** ** Failed writes *)

(** Find the call [c] of [H : calls = before ++ c :: after] in the calls
    written out on the left, in every possible place. *)
Ltac place_call H :=
  simpl in H;
  lazymatch type of H with
  | [] = (?b ++ _ :: _)%list => destruct b; discriminate H
  | _ :: _ = (?b ++ _ :: _)%list =>
      let b1 := fresh "b" in
      let E := fresh "E" in
      destruct b as [|b1 b]; simpl in H; injection H as E H;
      [ subst | subst b1; place_call H ]
  end.

Section FailedWrites.

Import msalbase tokencache cacheManager props shape.

Context {S : Type} {SM : IStorageManager S} {TM : Methods}.

(** X14.  A write of a refresh token, an access token, an account or the
    app metadata that returns an error is the last call of the run, and
    the write path returns its error and no account. *)
Theorem failed_write_ends_run (p : AuthParametersInternal.t)
    (tr : TokenResponse.t) (w : World S)
    (before after : list StorageCall) (c : StorageCall) (e : error) :
  journal (snd (CacheTokenResponse p tr w))
  = (journal w ++ before ++ c :: after)%list ->
  writeError c = Some e -> isIDTokenWrite c = false ->
  after = [] /\ snd (fst (CacheTokenResponse p tr w)) = (None, Some e).
Proof.
  run_write p tr w Hrun.
  all: intros H He Hid.
  all: first [ apply app_inv_head in H
             | rewrite <- (app_nil_r (journal w)) in H at 1;
               apply app_inv_head in H ].
  all: place_call H.
  all: simpl in He, Hid; try discriminate.
  all: inversion He; subst; split; reflexivity.
Qed.

(** X15.  A write of the ID token that returns an error does not end the
    run: the account is written next, and the error is returned nowhere;
    if the account write and the app-metadata write succeed, the write
    path returns the account. *)
Theorem failed_id_token_write_goes_on (p : AuthParametersInternal.t)
    (tr : TokenResponse.t) (w : World S)
    (before after : list StorageCall) (i : idTokenCacheItem.t) (e : error) :
  journal (snd (CacheTokenResponse p tr w))
  = (journal w ++ before ++ CallWriteIDToken i (Some e) :: after)%list ->
  exists r rest,
    after = CallWriteAccount (accountOf p tr) r :: rest
    /\ (r = None ->
        (forall m e', ~ In (CallWriteAppMetadata m (Some e')) rest) ->
        snd (fst (CacheTokenResponse p tr w)) = (Some (accountOf p tr), None)).
Proof.
  run_write p tr w Hrun.
  all: intros H.
  all: first [ apply app_inv_head in H
             | rewrite <- (app_nil_r (journal w)) in H at 1;
               apply app_inv_head in H ].
  all: place_call H.
  all: try discriminate.
  all: do 2 eexists; split; [reflexivity|].
  all: intros Hr Hno; try discriminate Hr; try reflexivity.
  all: exfalso; eapply Hno; simpl; eauto.
Qed.

End FailedWrites.

(** ** The further properties at work on concrete runs *)

Section RunsMore.

Import msalbase tokencache cacheManager props shape memory runs cases.

Lemma afterB_bufferFits : bufferFits (nextReading afterB).
Proof. unfold bufferFits, int64_min, int64_max. vm_compute. split; discriminate. Qed.

Lemma start_second_bufferFits : bufferFits (secondReading start).
Proof. unfold bufferFits, int64_min, int64_max. vm_compute. split; discriminate. Qed.

Lemma keys_of_B : ~ writeKeyMissing (paramsOf "B" "") responseB.
Proof. intros [H|[H|[H|[H|H]]]]; discriminate H. Qed.

(** Two tokens with the same two timestamps, another secret and another
    extended expiry: the same run of the evaluator. *)
Lemma evaluator_reads_two_fields_witness :
  accessTokenCacheItem.CachedAt freshToken
  = accessTokenCacheItem.CachedAt otherToken
  /\ accessTokenCacheItem.ExpiresOnUnixTimestamp freshToken
     = accessTokenCacheItem.ExpiresOnUnixTimestamp otherToken
  /\ accessTokenCacheItem.ExtendedExpiresOnUnixTimestamp freshToken
     <> accessTokenCacheItem.ExtendedExpiresOnUnixTimestamp otherToken
  /\ isAccessTokenValid freshToken start = isAccessTokenValid otherToken start.
Proof.
  assert (Hc : accessTokenCacheItem.CachedAt freshToken
               = accessTokenCacheItem.CachedAt otherToken)
    by (vm_compute; reflexivity).
  assert (He : accessTokenCacheItem.ExpiresOnUnixTimestamp freshToken
               = accessTokenCacheItem.ExpiresOnUnixTimestamp otherToken)
    by (vm_compute; reflexivity).
  split; [exact Hc|]. split; [exact He|].
  split; [vm_compute; discriminate|].
  exact (evaluator_reads_two_fields freshToken otherToken start Hc He).
Defined.

(** A token rejected at the first reading of the clock is rejected two
    readings later. *)
Lemma evaluator_expiry_is_final_witness :
  parses (accessTokenCacheItem.CachedAt edgeToken) 1700000000
  /\ 1700000000 <= nextReading start <= nextReading afterB
  /\ fst (isAccessTokenValid edgeToken start) = false
  /\ fst (isAccessTokenValid edgeToken afterB) = false.
Proof.
  assert (Hc : parses (accessTokenCacheItem.CachedAt edgeToken) 1700000000)
    by (vm_compute; reflexivity).
  assert (Hle : 1700000000 <= nextReading start <= nextReading afterB)
    by (vm_compute; split; discriminate).
  assert (Hv : fst (isAccessTokenValid edgeToken start) = false)
    by (vm_compute; reflexivity).
  split; [exact Hc|]. split; [exact Hle|]. split; [exact Hv|].
  exact (proj2 (evaluator_expiry_is_final edgeToken start afterB 1700000000
                  start_bufferFits afterB_bufferFits Hc Hle) Hv).
Defined.

(** The log of the evaluator on an accepted and on a rejected token. *)
Lemma evaluator_effects_witness :
  fst (isAccessTokenValid freshToken start) = true
  /\ logged (snd (isAccessTokenValid freshToken start)) = logged start
  /\ fst (isAccessTokenValid edgeToken start) = false
  /\ exists message,
       logged (snd (isAccessTokenValid edgeToken start))
       = (logged start ++ [(LevelInfo, message, [])])%list.
Proof.
  assert (Ht : fst (isAccessTokenValid freshToken start) = true)
    by (vm_compute; reflexivity).
  assert (Hf : fst (isAccessTokenValid edgeToken start) = false)
    by (vm_compute; reflexivity).
  destruct (evaluator_effects freshToken start) as (_ & _ & _ & Hkeep & _).
  destruct (evaluator_effects edgeToken start) as (_ & _ & _ & _ & Hlog).
  split; [exact Ht|]. split; [exact (Hkeep Ht)|]. split; [exact Hf|].
  exact (Hlog Hf).
Defined.

(** The timestamps of [freshToken] were written by [FormatInt]; it is
    valid at the first reading by arithmetic alone. *)
Lemma evaluator_on_formatted_timestamps_witness :
  is_int64 1700000000 /\ is_int64 1700000301
  /\ fst (isAccessTokenValid freshToken start) = true.
Proof.
  assert (Hc : is_int64 1700000000)
    by (unfold is_int64, int64_min, int64_max; lia).
  assert (He : is_int64 1700000301)
    by (unfold is_int64, int64_min, int64_max; lia).
  split; [exact Hc|]. split; [exact He|].
  apply (evaluator_on_formatted_timestamps freshToken 1700000000 1700000301
           start Hc He eq_refl eq_refl start_bufferFits).
  vm_compute. split; [discriminate | reflexivity].
Defined.

(** The reads of the in-memory storage keep its state; so does the read
    path over it. *)
Lemma read_path_keeps_storage_witness :
  readsKeepState storage
  /\ storageManager (snd (TryReadCache (paramsOf "B" "uid.utid") resolver afterB))
     = storageManager afterB.
Proof.
  assert (H : readsKeepState storage) by (repeat split).
  split; [exact H|].
  exact (read_path_keeps_storage (paramsOf "B" "uid.utid") resolver afterB H).
Defined.

(** The write path of client ["B"] returns the account it built and
    wrote. *)
Lemma write_path_result_witness :
  snd (fst (CacheTokenResponse (paramsOf "B" "") responseB start))
  = (Some (accountOf (paramsOf "B" "") responseB), None)
  /\ exists before r,
       journal (snd (CacheTokenResponse (paramsOf "B" "") responseB start))
       = (journal start ++ before
          ++ [CallWriteIDToken (idTokenOf (paramsOf "B" "") responseB) r;
              CallWriteAccount (accountOf (paramsOf "B" "") responseB) None;
              CallWriteAppMetadata (appMetadataOf (paramsOf "B" "") responseB)
                None])%list.
Proof.
  assert (Hres : snd (fst (CacheTokenResponse (paramsOf "B" "") responseB start))
                 = (Some (accountOf (paramsOf "B" "") responseB), None))
    by (vm_compute; reflexivity).
  split; [exact Hres|].
  destruct (write_path_result (paramsOf "B" "") responseB start) as (_ & H).
  exact (proj2 (proj2 (H _ Hres))).
Defined.

(** A storage whose account writes fail: the error returned is the one of
    the last call, the account write. *)
Lemma write_path_error_origin_witness :
  snd (fst (CacheTokenResponse (paramsOf "B" "") responseB noAccounts))
  = (None, Some (errors_New "quota exceeded"))
  /\ exists before c,
       journal (snd (CacheTokenResponse (paramsOf "B" "") responseB noAccounts))
       = (journal noAccounts ++ before ++ [c])%list
       /\ writeError c = Some (errors_New "quota exceeded")
       /\ isIDTokenWrite c = false.
Proof.
  assert (Hres : snd (fst (CacheTokenResponse (paramsOf "B" "") responseB
                             noAccounts))
                 = (None, Some (errors_New "quota exceeded")))
    by (vm_compute; reflexivity).
  split; [exact Hres|].
  destruct (write_path_error_origin (paramsOf "B" "") responseB noAccounts _ Hres)
    as [(He & _)|H]; [discriminate He | exact H].
Defined.

(** The access token of [responseB] is usable when the write path of
    client ["B"] runs, and is written. *)
Lemma write_path_persists_usable_token_witness :
  usableAt (secondReading start)
    (accessTokenOf (paramsOf "B" "") responseB (nextReading start))
  /\ exists new,
       journal (snd (CacheTokenResponse (paramsOf "B" "") responseB start))
       = (journal start ++ new)%list
       /\ ((forall i e, ~ In (CallWriteRefreshToken i (Some e)) new) ->
           exists res,
             In (CallWriteAccessToken
                   (accessTokenOf (paramsOf "B" "") responseB
                      (nextReading start)) res) new).
Proof.
  assert (Hu : usableAt (secondReading start)
                 (accessTokenOf (paramsOf "B" "") responseB (nextReading start))).
  { exists 1700000000, 1700003600. repeat split; vm_compute; congruence. }
  split; [exact Hu|].
  exact (write_path_persists_usable_token (paramsOf "B" "") responseB start
           start_second_bufferFits keys_of_B eq_refl Hu).
Defined.

(** After the write path of client ["B"], the read path with the same
    request parameters asks for the access token under the keys it was
    stored with. *)
Lemma write_then_read_keys_witness :
  In "login.contoso.com" contosoAliases
  /\ exists h al r c sc found,
       In (CallReadAccessToken h al r c sc found)
         (journal (snd (TryReadCache paramsAfterB resolver afterB)))
       /\ h = "uid.utid" /\ r = "tenant" /\ c = "B"
       /\ ConcatenateScopes sc = "user.read".
Proof.
  assert (Hin : In "login.contoso.com" contosoAliases) by (left; reflexivity).
  split; [exact Hin|].
  destruct (write_then_read_keys (paramsOf "B" "") responseB start afterB
              resolver metadata 1700000000 keys_of_B eq_refl Hin eq_refl)
    as (h & al & r & c & sc & found & idt & am & rt & acc & Hj
        & (Hh & _ & Hr & Hc & Hsc) & _).
  exists h, al, r, c, sc, found.
  split; [|auto].
  unfold paramsAfterB. rewrite Hj. apply in_or_app. right. left. reflexivity.
Defined.

(** An access-token deletion that finds nothing on the in-memory storage:
    failure status, no error, one warning. *)
Lemma delete_access_token_outcome_witness :
  fst (deleteCachedAccessToken "uid.utid" "login.contoso.com" "tenant" "A"
         "user.read" start) = None
  /\ exists warnings,
       logged (snd (deleteCachedAccessToken "uid.utid" "login.contoso.com"
                      "tenant" "A" "user.read" start))
       = (logged start
          ++ (LevelInfo,
              "Deleting an access token from the cache for homeAccountId '%s' environment '%s' realm '%s' clientId '%s' target '%s'",
              [ArgString "uid.utid"; ArgString "login.contoso.com";
               ArgString "tenant"; ArgString "A"; ArgString "user.read"])
             :: warnings)%list
       /\ warnings
          = [(LevelWarn, "Failure deleting an access token from the cache",
              [])].
Proof.
  destruct (delete_access_token_outcome "uid.utid" "login.contoso.com" "tenant"
              "A" "user.read" start)
    as (Hres & _ & _ & warnings & Hlog & Hwarn & _).
  split; [exact Hres|].
  exists warnings. split; [exact Hlog|].
  apply Hwarn; reflexivity.
Defined.

(** The failed account write is the last call of its run. *)
Lemma failed_write_ends_run_witness :
  let p := paramsOf "B" "" in
  journal (snd (CacheTokenResponse p responseB noAccounts))
  = (journal noAccounts
     ++ [CallWriteRefreshToken (refreshTokenOf p responseB) None;
         CallWriteAccessToken (accessTokenOf p responseB 1700000000) None;
         CallWriteIDToken (idTokenOf p responseB) None]
     ++ CallWriteAccount (accountOf p responseB)
          (Some (errors_New "quota exceeded")) :: [])%list
  /\ snd (fst (CacheTokenResponse p responseB noAccounts))
     = (None, Some (errors_New "quota exceeded")).
Proof.
  intros p.
  assert (Hj : journal (snd (CacheTokenResponse p responseB noAccounts))
    = (journal noAccounts
       ++ [CallWriteRefreshToken (refreshTokenOf p responseB) None;
           CallWriteAccessToken (accessTokenOf p responseB 1700000000) None;
           CallWriteIDToken (idTokenOf p responseB) None]
       ++ CallWriteAccount (accountOf p responseB)
            (Some (errors_New "quota exceeded")) :: [])%list)
    by (vm_compute; reflexivity).
  split; [exact Hj|].
  exact (proj2 (failed_write_ends_run p responseB noAccounts _ _ _ _ Hj
                  eq_refl eq_refl)).
Defined.

(** The failed ID-token write is followed by the account write, and the
    run returns the account. *)
Lemma failed_id_token_write_goes_on_witness :
  let p := paramsOf "A" "" in
  journal (snd (CacheTokenResponse p responseB faulty))
  = (journal faulty
     ++ [CallWriteRefreshToken (refreshTokenOf p responseB) None;
         CallWriteAccessToken (accessTokenOf p responseB 1700000000) None]
     ++ CallWriteIDToken (idTokenOf p responseB)
          (Some (errors_New "disk full"))
        :: [CallWriteAccount (accountOf p responseB) None;
            CallWriteAppMetadata (appMetadataOf p responseB) None])%list
  /\ snd (fst (CacheTokenResponse p responseB faulty))
     = (Some (accountOf p responseB), None).
Proof.
  intros p.
  assert (Hj : journal (snd (CacheTokenResponse p responseB faulty))
    = (journal faulty
       ++ [CallWriteRefreshToken (refreshTokenOf p responseB) None;
           CallWriteAccessToken (accessTokenOf p responseB 1700000000) None]
       ++ CallWriteIDToken (idTokenOf p responseB)
            (Some (errors_New "disk full"))
          :: [CallWriteAccount (accountOf p responseB) None;
              CallWriteAppMetadata (appMetadataOf p responseB) None])%list)
    by (vm_compute; reflexivity).
  split; [exact Hj|].
  destruct (failed_id_token_write_goes_on p responseB faulty _ _ _ _ Hj)
    as (r & rest & Hafter & Hres).
  inversion Hafter; subst. apply Hres; [reflexivity|].
  intros m e' Hin. simpl in Hin. destruct Hin as [Hin|Hin];
    [discriminate Hin | exact Hin].
Defined.

End RunsMore.
